(** * uPiot: firmware option compiler, flash workflow and sampy dispatcher

    A shallow embedding of [commands/burn_firmware.py] and
    [tools/sampy_manager.py].  Python strings are [string], a Python [dict]
    iterated with [.items()] is an association list in iteration order,
    exceptions are an explicit [Result], and calls into the editor, the serial
    layer and the device are recorded as a trace of events. *)

From Stdlib Require Import String Ascii List Bool Arith Lia ZArith.
Import ListNotations.
Open Scope string_scope.
Open Scope list_scope.

(** Python's [+] on [str]; [++] is kept for lists. *)
Infix "+++" := String.append (at level 60, right associativity).

Set Implicit Arguments.

(** ** Python [str] operations used by the two modules *)
Module PyStr.

Definition LF : ascii := "010"%char.
Definition CR : ascii := "013"%char.
Definition TAB : ascii := "009"%char.
Definition DQUOTE : ascii := "034"%char.

Definition chr (c : ascii) : string := String c EmptyString.
Definition nl : string := chr LF.
Definition cr : string := chr CR.
Definition crlf : string := String CR (String LF EmptyString).

(** [s.startswith(p)] *)
Fixpoint startswith (s p : string) {struct p} : bool :=
  match p with
  | EmptyString => true
  | String a p' =>
      match s with
      | EmptyString => false
      | String b s' => Ascii.eqb a b && startswith s' p'
      end
  end.

(** [s.endswith(suf)] *)
Fixpoint endswith (s suf : string) : bool :=
  String.eqb s suf
  || match s with
     | EmptyString => false
     | String _ s' => endswith s' suf
     end.

(** [sub in s] on strings: substring test *)
Fixpoint contains (sub s : string) : bool :=
  startswith s sub
  || match s with
     | EmptyString => false
     | String _ s' => contains sub s'
     end.

(** [s.replace(old, new)] for a non-empty [old]: scan from the left, and at
    every position where [old] starts emit [new] and skip [old].  [skip]
    counts the characters of a matched [old] still to be passed over. *)
Fixpoint replace_from (old new : string) (skip : nat) (s : string) : string :=
  match s with
  | EmptyString => EmptyString
  | String c s' =>
      match skip with
      | S k => replace_from old new k s'
      | O =>
          if startswith s old
          then new +++ replace_from old new (String.length old - 1) s'
          else String c (replace_from old new 0 s')
      end
  end.

(** [s.replace("", new)]: [new] before every character and at the end. *)
Fixpoint intersperse (new s : string) : string :=
  match s with
  | EmptyString => new
  | String c s' => new +++ String c (intersperse new s')
  end.

Definition replace (s old new : string) : string :=
  match old with
  | EmptyString => intersperse new s
  | String _ _ => replace_from old new 0 s
  end.

(** [c in s] for a single character. *)
Fixpoint has_char (c : ascii) (s : string) : bool :=
  match s with
  | EmptyString => false
  | String a s' => Ascii.eqb a c || has_char c s'
  end.

(** [s.split(sep)[-1]] for a one-character separator: the text after the
    last separator, or all of [s] when there is none. *)
Fixpoint last_field (sep : ascii) (s : string) : string :=
  match s with
  | EmptyString => EmptyString
  | String c s' =>
      if has_char sep s' then last_field sep s'
      else if Ascii.eqb c sep then s'
      else s
  end.

End PyStr.

(** ** Exceptions and results *)

Inductive ExnKind : Type :=
| AttributeError
| RuntimeError
| FileNotFoundError
| PyboardError
| DirectoryExistsError
| TypeError
| NameError
| KeyError
| OSError.

Record Exn : Type := mkExn { kind : ExnKind; str : string }.

Inductive Result (A : Type) : Type :=
| Ret (a : A)
| Raise (e : Exn).
Arguments Ret {A} a.
Arguments Raise {A} e.

Definition kind_eqb (a b : ExnKind) : bool :=
  match a, b with
  | AttributeError, AttributeError
  | RuntimeError, RuntimeError
  | FileNotFoundError, FileNotFoundError
  | PyboardError, PyboardError
  | DirectoryExistsError, DirectoryExistsError
  | TypeError, TypeError
  | NameError, NameError
  | KeyError, KeyError
  | OSError, OSError => true
  | _, _ => false
  end.

(** ** A Python [dict] with string keys, in iteration order *)
Module Dict.

Definition t (V : Type) : Type := list (string * V).

(** [d[key]]: the value, or [KeyError]. *)
Fixpoint get {V} (d : t V) (key : string) : Result V :=
  match d with
  | [] => Raise (mkExn KeyError key)
  | (k, v) :: d' => if String.eqb k key then Ret v else get d' key
  end.

(** [d.items()] *)
Definition items {V} (d : t V) : list (string * V) := d.

End Dict.

(** ** [commands/burn_firmware.py] *)
Module BurnFirmware.
Import PyStr.

(** The [upload] object of a board file, and the parsed board file: a JSON
    object from section names to sections.  The list order is the order in
    which [.items()] yields the entries. *)
Definition Upload : Type := Dict.t string.
Definition BoardFile : Type := Dict.t Upload.

Definition write_flash : string := "write_flash".

(** [separator = '' if key.endswith('=') else ' '] *)
Definition separator (key : string) : string :=
  if endswith key "=" then "" else " ".

(** ["{0}{1}{2}".format(key, separator, value)] *)
Definition format_option (key value : string) : string :=
  key +++ separator key +++ value.

(** The [for key, value in ....items()] loop, appending to [options]. *)
Fixpoint options_loop (items : list (string * string)) (options : list string)
  : list string :=
  match items with
  | [] => options
  | (key, value) :: rest =>
      if negb (contains write_flash key)
      then options_loop rest (options ++ [format_option key value])
      else options_loop rest options
  end.

(** Lines 146-156 of [get_board_options], on the parsed board file. *)
Definition board_options (board_file : BoardFile) : Result (list string) :=
  match Dict.get board_file "upload" with
  | Raise e => Raise e
  | Ret upload =>
      let options := options_loop (Dict.items upload) [] in
      match Dict.get upload write_flash with
      | Raise e => Raise e
      | Ret wf => Ret (options ++ ["write_flash " +++ wf])
      end
  end.

Inductive Answer : Type := DIALOG_YES | DIALOG_NO | DIALOG_CANCEL.

(** Calls that leave [burn_firmware], in program order. *)
Inductive Event : Type :=
| YesNoCancelDialog (caption yes no : string)
| ShowConsole
| EraseFlash
| CheckPort (port : string)
| RunCommand (options : list string).

(** What the surroundings answer: the board file found for a board name
    (reading and parsing may fail), [os.path.join], the button pressed in
    the dialog, and [serial.check_port]. *)
Record Env : Type := mkEnv {
  load_board : string -> Result BoardFile;
  join : string -> string -> string;
  yes_no_cancel_dialog : Answer;
  check_port : string -> bool
}.

(** [get_board_options(board)]: load [board + '.json'], then compile. *)
Definition get_board_options (env : Env) (board : string)
  : Result (list string) :=
  match load_board env board with
  | Raise e => Raise e
  | Ret board_file => board_options board_file
  end.

(** The fields of the command object read by [burn_firmware]. *)
Record Self : Type := mkSelf {
  port : string;
  firmwares : string;
  url : string
}.

(** A finished call: the calls made, the last value of the local list
    [options] (none when it was never bound), and how the call ended. *)
Record Run : Type := mkRun {
  trace : list Event;
  options : option (list string);
  result : Result unit
}.

Definition caption : string := "Do you want to erase the flash memory?".

Definition burn_firmware (env : Env) (self : Self) : Run :=
  let filename := last_field "/" (url self) in
  let firmware := join env (firmwares self) filename in
  match get_board_options env "esp32" with
  | Raise e => mkRun [] None (Raise e)
  | Ret options =>
      let options := options ++ [firmware] in
      let answer := yes_no_cancel_dialog env in
      let tr := [YesNoCancelDialog caption "Yes" "No"] in
      match answer with
      | DIALOG_CANCEL => mkRun tr (Some options) (Ret tt)
      | _ =>
          let tr := tr ++ [ShowConsole] in
          let tr :=
            match answer with
            | DIALOG_YES => tr ++ [EraseFlash]
            | _ => tr
            end in
          let options := ("--port " +++ port self) :: options in
          let tr := tr ++ [CheckPort (port self)] in
          if negb (check_port env (port self))
          then mkRun tr (Some options) (Ret tt)
          else mkRun (tr ++ [RunCommand options]) (Some options) (Ret tt)
      end
  end.

(** The entries of [upload] that pass the test of the loop, and the
    arguments the loop appends for them, in iteration order. *)
Definition passes (entry : string * string) : bool :=
  negb (contains write_flash (fst entry)).

Definition emitted (upload : Upload) : list string :=
  map (fun entry => format_option (fst entry) (snd entry))
      (filter passes (Dict.items upload)).

(** Every key other than [write_flash] has its argument in [out]. *)
Definition emits_every_other_key (upload : Upload) (out : list string) : Prop :=
  forall key value,
    In (key, value) (Dict.items upload) ->
    key <> write_flash ->
    In (format_option key value) out.

Definition esp32_upload : Upload :=
  [("--flash_mode=", "dio"); ("--flash_freq", "40m");
   ("write_flash", "0x1000 firmware.bin")].

Definition size_upload : Upload :=
  [("--write_flash_size", "4MB"); ("write_flash", "0x1000 firmware.bin")].

Definition board_env (upload : Upload) (answer : Answer) (reachable : bool)
  : Env :=
  mkEnv (fun _ => Ret [("upload", upload)])
        (fun a b => a +++ "/" +++ b)
        answer
        (fun _ => reachable).

Definition some_self : Self := mkSelf "COM3" "firmwares/esp32" "esp32.bin".

Definition is_dialog (ev : Event) : bool :=
  match ev with
  | YesNoCancelDialog _ _ _ => true
  | _ => false
  end.

(** Which calls of a run flash, and which erase. *)
Definition runs_flash (ev : Event) : bool :=
  match ev with
  | RunCommand _ => true
  | _ => false
  end.

Definition erases (ev : Event) : bool :=
  match ev with
  | EraseFlash => true
  | _ => false
  end.

(** The board file of [esp32] loads and compiles. *)
Definition compiles (env : Env) : bool :=
  match get_board_options env "esp32" with
  | Ret _ => true
  | Raise _ => false
  end.

End BurnFirmware.

(** ** [tools/sampy_manager.py] *)
Module SampyManager.
Import PyStr.

Definition Port : Type := string.

(** The objects the module handles: the message view [message.open(port)]
    returns, a running serial task stored in [serial.serial_dict], and a
    [Sampy] connection. *)
Inductive Sink : Type := SinkOf (port : option Port).
Inductive Serial : Type := SerialTask (id : nat).
Inductive Sampy : Type := SampyOn (port : Port).

Inductive Answer : Type := DIALOG_YES | DIALOG_NO | DIALOG_CANCEL.

(** Calls that leave the module, in program order. *)
Inductive Event : Type :=
| StopTask (run_serial : Serial)
| MessageOpen (port : option Port)
| SetFocus (txt : Sink)
| NewSampy (port : Port) (connected : bool)
| Print (txt : Sink) (text : string)
| EstablishConnection (port : option Port)
| WindowCommand (name : string) (args : option (string * bool))
| Mkfolder (path : string)
| Mkdir (path : string)
| OpenWb (path : string)
| YesNoCancelDialog (caption yes no : string).

(** What the surroundings answer.  The [sampy_*] fields are the outcomes
    of the methods of an open [Sampy] object. *)
Record Env : Type := mkEnv {
  selected_port : option Port;
  in_use : list Port;
  serial_dict : Dict.t Serial;
  new_sampy : Port -> Result Sampy;
  sampy_run : string -> Result unit;
  sampy_ls : Result (list string);
  sampy_get : string -> Result string;
  sampy_get_into : string -> string -> Result unit;
  sampy_put : string -> Result unit;
  sampy_rm : string -> Result unit;
  sampy_mkdir : string -> Result unit;
  sampy_rmdir : string -> Result unit;
  basename : string -> string;
  normpath : string -> string;
  join : string -> string -> string;
  path_exists : string -> bool;
  mkfolder : string -> Result unit;
  mkdir : string -> Result unit;
  open_wb : string -> Result unit;
  check_sidebar_folder : string -> bool;
  yes_no_cancel_dialog : Answer
}.

(** The module globals [txt] and [port]; both start as [None]. *)
Record Globals : Type := mkGlobals {
  txt : option Sink;
  port : option Port
}.

Definition initial : Globals := mkGlobals None None.

(** A finished computation: value or exception, the globals left behind
    and the calls made. *)
Record Out (A : Type) : Type := mkOut {
  value : Result A;
  globals : Globals;
  events : list Event
}.

Definition M (A : Type) : Type := Globals -> Out A.

Definition ret {A} (a : A) : M A := fun g => mkOut (Ret a) g [].

Definition raise {A} (e : Exn) : M A := fun g => mkOut (Raise e) g [].

Definition bind {A B} (m : M A) (f : A -> M B) : M B :=
  fun g =>
    let o := m g in
    match value o with
    | Ret a =>
        let o' := f a (globals o) in
        mkOut (value o') (globals o') (events o ++ events o')
    | Raise e => mkOut (Raise e) (globals o) (events o)
    end.

(** [try: m  except ...:] where [handler e] is the body of the first
    clause matching [e], if there is one. *)
Definition try_except {A} (m : M A) (handler : Exn -> option (M A)) : M A :=
  fun g =>
    let o := m g in
    match value o with
    | Ret _ => o
    | Raise e =>
        match handler e with
        | Some h =>
            let o' := h (globals o) in
            mkOut (value o') (globals o') (events o ++ events o')
        | None => o
        end
    end.

Definition emit (ev : Event) : M unit := fun g => mkOut (Ret tt) g [ev].

Definition lift {A} (r : Result A) : M A := fun g => mkOut r g [].

Definition set_txt (t : Sink) : M unit :=
  fun g => mkOut (Ret tt) (mkGlobals (Some t) (port g)) [].

Definition set_port (p : option Port) : M unit :=
  fun g => mkOut (Ret tt) (mkGlobals (txt g) p) [].

Definition get_port : M (option Port) := fun g => mkOut (Ret (port g)) g [].

Definition no_attribute (name : string) : Exn :=
  mkExn AttributeError
        ("'NoneType' object has no attribute '" +++ name +++ "'").

(** [txt.name]: the global [txt], which is [None] until [start_sampy] ran. *)
Definition txt_attr (name : string) : M Sink :=
  fun g =>
    match txt g with
    | Some t => mkOut (Ret t) g []
    | None => mkOut (Raise (no_attribute name)) g []
    end.

(** [sampy.name] on what [start_sampy] returned. *)
Definition attr (sampy : option Sampy) (name : string) : M Sampy :=
  match sampy with
  | Some s => ret s
  | None => raise (no_attribute name)
  end.

Declare Scope py_scope.
Delimit Scope py_scope with py.
Notation "x <- m ;; k" := (bind m (fun x => k))
  (at level 61, m at next level, right associativity) : py_scope.
Notation "m ;; k" := (bind m (fun _ => k))
  (at level 61, right associativity) : py_scope.
Open Scope py_scope.

Definition txt_print (text : string) : M unit :=
  t <- txt_attr "print" ;; emit (Print t text).

Definition txt_set_focus : M unit :=
  t <- txt_attr "set_focus" ;; emit (SetFocus t).

(** Python truth value of [port]: [None] and [''] are false. *)
Definition truthy (p : option Port) : bool :=
  match p with
  | None => false
  | Some EmptyString => false
  | Some (String _ _) => true
  end.

(** [port in serial.in_use] *)
Definition port_in (p : option Port) (l : list Port) : bool :=
  match p with
  | None => false
  | Some x => existsb (String.eqb x) l
  end.

Definition not_ready : string :=
  "Opening console..." +++ nl +++ "Run the command again.".

Definition on (k : ExnKind) {A} (e : Exn) (h : M A) : option (M A) :=
  if kind_eqb (kind e) k then Some h else None.

Definition or_else {A} (a b : option A) : option A :=
  match a with
  | Some _ => a
  | None => b
  end.

Section WithEnv.
Variable env : Env.

(** An exception out of [Sampy(...)] reaches the clause
    [except file.PyboardError]; the module binds no name [file]
    (it imports [files]), so evaluating the clause raises [NameError]
    and the handler body is never entered. *)
Definition start_sampy (quiet : bool) : M (option Sampy) :=
  let p := selected_port env in
  set_port p ;;
  (if port_in p (in_use env) && negb quiet then
     run_serial <- lift (Dict.get (serial_dict env)
                                  (match p with Some x => x | None => "" end)) ;;
     emit (StopTask run_serial)
   else ret tt) ;;
  emit (MessageOpen p) ;;
  set_txt (SinkOf p) ;;
  txt_set_focus ;;
  match p with
  | Some x =>
      if truthy p && negb quiet then
        match new_sampy env x with
        | Ret s => emit (NewSampy x true) ;; ret (Some s)
        | Raise _ =>
            emit (NewSampy x false) ;;
            raise (mkExn NameError "name 'file' is not defined")
        end
      else ret None
  | None => ret None
  end.

Definition finished_action : M unit :=
  p <- get_port ;;
  emit (EstablishConnection p) ;;
  emit (WindowCommand "upiot_console_write" None).

Definition run_file (filepath : string) : M unit :=
  sampy <- start_sampy false ;;
  let file := basename env filepath in
  txt_print (nl +++ nl +++ ">> Run " +++ file +++ nl +++ nl
             +++ chr DQUOTE +++ "ctrl+shift+c" +++ chr DQUOTE
             +++ " to stop the script." +++ nl +++ "---") ;;
  try_except
    (_ <- attr sampy "run" ;;
     lift (sampy_run env filepath) ;;
     txt_print (nl +++ "[done]"))
    (fun e => on AttributeError e
                (txt_print (nl +++ nl +++ not_ready))) ;;
  finished_action.

Fixpoint print_names (names : list string) : M unit :=
  match names with
  | [] => ret tt
  | filename :: rest => txt_print (nl +++ filename) ;; print_names rest
  end.

Definition list_files : M unit :=
  sampy <- start_sampy false ;;
  txt_print (nl +++ nl +++ ">> sampy ls" +++ nl) ;;
  try_except
    (_ <- attr sampy "ls" ;;
     names <- lift (sampy_ls env) ;;
     print_names names)
    (fun e => on AttributeError e
                (txt_print (nl +++ nl +++ not_ready))) ;;
  finished_action.

(** [output.replace('\r\n', '\n').replace('\r', '\n')] *)
Definition normalize (output : string) : string :=
  replace (replace output crlf nl) cr nl.

Definition get_file (filename : string) : M unit :=
  sampy <- start_sampy false ;;
  txt_print (nl +++ nl +++ ">> get " +++ filename) ;;
  output <- try_except
              (_ <- attr sampy "get" ;; lift (sampy_get env filename))
              (fun e => on RuntimeError e (ret (str e))) ;;
  let output := normalize output in
  txt_print (nl +++ nl +++ output) ;;
  finished_action.

(** The body of the [for filename in sampy.ls()] loop of [get_files]. *)
Fixpoint retrieve (destination : string) (names : list string) : M unit :=
  match names with
  | [] => ret tt
  | filename :: rest =>
      txt_print (nl +++ "Retrieving " +++ filename +++ " ...") ;;
      let filepath := normpath env (join env destination filename) in
      (if endswith filename "/" then
         if negb (path_exists env filepath) then
           emit (Mkdir filepath) ;; lift (mkdir env filepath)
         else ret tt
       else
         emit (OpenWb filepath) ;;
         lift (open_wb env filepath) ;;
         lift (sampy_get_into env filename filepath)) ;;
      retrieve destination rest
  end.

Definition add_caption : string :=
  "files retrieved, would you like to "
  +++ "add the folder to your current proyect?".

Definition get_files (destination : string) : M unit :=
  sampy <- start_sampy false ;;
  let destination := normpath env destination in
  emit (Mkfolder destination) ;;
  lift (mkfolder env destination) ;;
  txt_print (nl +++ nl +++ ">> Storing in " +++ destination +++ nl) ;;
  r <- try_except
         (_ <- attr sampy "ls" ;;
          names <- lift (sampy_ls env) ;;
          retrieve destination names ;;
          ret ("[done]", false))
         (fun e => on AttributeError e (ret (not_ready, true))) ;;
  let '(output, error) := r in
  txt_print (nl +++ nl +++ output) ;;
  finished_action ;;
  if (error : bool) then ret tt
  else if check_sidebar_folder env destination then ret tt
  else
    emit (YesNoCancelDialog add_caption "Add" "Append") ;;
    match yes_no_cancel_dialog env with
    | DIALOG_CANCEL => ret tt
    | DIALOG_YES =>
        emit (WindowCommand "upiot_add_project" (Some (destination, false)))
    | DIALOG_NO =>
        emit (WindowCommand "upiot_add_project" (Some (destination, true)))
    end.

(** The inner [try] of [put_file] either binds [output] or, in the
    [PyboardError] clause, leaves the function with
    [return finished_action()]. *)
Inductive PutFlow : Type :=
| Output (output : string)
| Returned.

Definition put_file (filepath : string) : M unit :=
  sampy <- start_sampy false ;;
  flow <- try_except
            (let file := basename env filepath in
             txt_print (nl +++ nl +++ ">> put " +++ file) ;;
             flow <- try_except
                       (_ <- attr sampy "put" ;;
                        lift (sampy_put env (normpath env filepath)) ;;
                        ret (Output "[done]"))
                       (fun e =>
                          or_else (on FileNotFoundError e
                                     (ret (Output (str e))))
                         (or_else (on PyboardError e
                                     (txt_print (nl +++ nl
                                                 +++ "Error putting the file."
                                                 +++ nl +++ "Reason: "
                                                 +++ str e) ;;
                                      finished_action ;;
                                      ret Returned))
                                  (on AttributeError e
                                     (ret (Output not_ready))))) ;;
             match flow with
             | Output output =>
                 txt_print (nl +++ nl +++ output) ;; ret flow
             | Returned => ret Returned
             end)
            (fun e => on TypeError e
                        (txt_print (nl +++ nl +++ str e) ;;
                         ret (Output (str e)))) ;;
  match flow with
  | Output _ => finished_action
  | Returned => ret tt
  end.

Definition remove_file (filepath : string) : M unit :=
  sampy <- start_sampy false ;;
  let file := basename env filepath in
  txt_print (nl +++ nl +++ ">> rm " +++ file) ;;
  output <- try_except
              (_ <- attr sampy "rm" ;;
               lift (sampy_rm env filepath) ;;
               ret "[done]")
              (fun e =>
                 or_else (on RuntimeError e (ret (str e)))
                         (on AttributeError e (ret not_ready))) ;;
  txt_print (nl +++ nl +++ output) ;;
  finished_action.

Definition make_folder (folder_name : string) : M unit :=
  sampy <- start_sampy false ;;
  txt_print (nl +++ nl +++ ">> mkdir " +++ folder_name) ;;
  output <- try_except
              (_ <- attr sampy "mkdir" ;;
               lift (sampy_mkdir env folder_name) ;;
               ret "[done]")
              (fun e =>
                 or_else (on DirectoryExistsError e (ret (str e)))
                         (on AttributeError e (ret not_ready))) ;;
  txt_print (nl +++ nl +++ output) ;;
  finished_action.

Definition remove_folder (folder_name : string) : M unit :=
  sampy <- start_sampy false ;;
  txt_print (nl +++ nl +++ ">> rmdir " +++ folder_name) ;;
  output <- try_except
              (_ <- attr sampy "rmdir" ;;
               lift (sampy_rmdir env folder_name) ;;
               ret "[done]")
              (fun e =>
                 or_else (on RuntimeError e (ret (str e)))
                         (on AttributeError e (ret not_ready))) ;;
  txt_print (nl +++ nl +++ output) ;;
  finished_action.

(** The text between the triple quotes of [_help], line by line. *)
Definition help_lines : list string :=
  [ nl +++ nl +++ "Usage: sampy COMMAND [ARGS]...";
    "";
    "        sampy - Sublime Text version of ampy MicroPython Tool";
    "";
    "        Sampy is the Sublime Text version of the ampy tool developed";
    "        by Adafruit. It's a tool to control MicroPython boards over a";
    "        serial connection.";
    "";
    "        Sampy will allow you to manipulate files on the board's internal";
    "        filesystem and even run scripts from the console or from the";
    "        Sublime Text interface.";
    "";
    "        Commands:";
    "           get" +++ chr TAB +++ chr TAB +++ chr TAB
      +++ "Retrieve a file from the board.";
    "           ls" +++ chr TAB +++ chr TAB +++ chr TAB
      +++ "List the contens on the board.";
    "           mkdir" +++ chr TAB +++ chr TAB
      +++ "Create a directory on the board.";
    "           put" +++ chr TAB +++ chr TAB +++ chr TAB
      +++ "Put a file or folder and its contents on the board.";
    "           reset" +++ chr TAB +++ chr TAB
      +++ "Perform soft reset/reboot of the board.";
    "           rm" +++ chr TAB +++ chr TAB +++ chr TAB
      +++ "Remove a file from the board.";
    "           rmdir" +++ chr TAB +++ chr TAB
      +++ "Forcefully remove a folder and all its content from board";
    "           run" +++ chr TAB +++ chr TAB +++ chr TAB
      +++ "Run a script and print it's output";
    "        " ].

Definition _help : string :=
  replace (String.concat nl help_lines) "    " "".

Definition help : M unit :=
  start_sampy true ;;
  txt_print _help ;;
  finished_action.

(** The operations a command of the editor can ask for. *)
Inductive Operation : Type :=
| Run (filepath : string)
| List
| Get (filename : string)
| GetFiles (destination : string)
| Put (filepath : string)
| Remove (filepath : string)
| MakeDir (folder_name : string)
| RemoveDir (folder_name : string)
| Help.

Definition dispatch (op : Operation) : M unit :=
  match op with
  | Run filepath => run_file filepath
  | List => list_files
  | Get filename => get_file filename
  | GetFiles destination => get_files destination
  | Put filepath => put_file filepath
  | Remove filepath => remove_file filepath
  | MakeDir folder_name => make_folder folder_name
  | RemoveDir folder_name => remove_folder folder_name
  | Help => help
  end.

End WithEnv.

(** Number of times [finished_action] ran: it is the only caller of
    [serial.establish_connection]. *)
Fixpoint finished_count (tr : list Event) : nat :=
  match tr with
  | [] => 0
  | EstablishConnection _ :: tr' => S (finished_count tr')
  | _ :: tr' => finished_count tr'
  end.

(** The texts printed to the message view, in order. *)
Fixpoint printed (tr : list Event) : list string :=
  match tr with
  | [] => []
  | Print _ text :: tr' => text :: printed tr'
  | _ :: tr' => printed tr'
  end.

Fixpoint focus_count (tr : list Event) : nat :=
  match tr with
  | [] => 0
  | SetFocus _ :: tr' => S (focus_count tr')
  | _ :: tr' => focus_count tr'
  end.

Definition is_stop_task (ev : Event) : bool :=
  match ev with
  | StopTask _ => true
  | _ => false
  end.

(** Modelled from the spec: [stop_task] and the [Sampy] constructor belong
    to modules that are not part of these two files.  By the spec a stop
    signal returns the session of the port to Closed and a connection that
    succeeds makes one session Open.  [open_sessions n tr] is the number of
    Open sessions on the resolved port after the calls of [tr], starting
    from [n]. *)
Fixpoint open_sessions (n : nat) (tr : list Event) : nat :=
  match tr with
  | [] => n
  | StopTask _ :: tr' => open_sessions 0 tr'
  | NewSampy _ true :: tr' => open_sessions (S n) tr'
  | _ :: tr' => open_sessions n tr'
  end.

(** No prefix of [tr] leaves more than one session Open, starting from
    [n] Open sessions. *)
Fixpoint exclusive (n : nat) (tr : list Event) : bool :=
  (n <=? 1)%nat
  && match tr with
     | [] => true
     | ev :: tr' => exclusive (open_sessions n [ev]) tr'
     end.

(** Line endings as the spec words them, in one pass: a carriage return
    followed by a line feed, or a carriage return alone, becomes one line
    feed. *)
Fixpoint line_breaks (s : string) : string :=
  match s with
  | EmptyString => EmptyString
  | String c s' =>
      if Ascii.eqb c CR then
        match s' with
        | String d s'' =>
            if Ascii.eqb d LF then String LF (line_breaks s'')
            else String LF (line_breaks s')
        | EmptyString => String LF EmptyString
        end
      else String c (line_breaks s')
  end.

(** The [except] clauses around the protocol call of each operation. *)
Definition catches (op : Operation) (k : ExnKind) : bool :=
  match op, k with
  | Run _, AttributeError
  | List, AttributeError
  | Get _, RuntimeError
  | GetFiles _, AttributeError
  | Put _, FileNotFoundError
  | Put _, PyboardError
  | Put _, AttributeError
  | Put _, TypeError
  | Remove _, RuntimeError
  | Remove _, AttributeError
  | MakeDir _, DirectoryExistsError
  | MakeDir _, AttributeError
  | RemoveDir _, RuntimeError
  | RemoveDir _, AttributeError => true
  | _, _ => false
  end.

(** [help] is the one operation that asks for a quiet start. *)
Definition quiet_of (op : Operation) : bool :=
  match op with
  | Help => true
  | _ => false
  end.

(** The calls on [sampy] inside the [try] of each operation, with the
    local file steps of [get_files] that run between them. *)
Definition protocol_call (env : Env) (sampy : option Sampy) (op : Operation)
  : M unit :=
  match op with
  | Run filepath => _ <- attr sampy "run" ;; lift (sampy_run env filepath)
  | List => _ <- attr sampy "ls" ;; _ <- lift (sampy_ls env) ;; ret tt
  | Get filename =>
      _ <- attr sampy "get" ;; _ <- lift (sampy_get env filename) ;; ret tt
  | GetFiles destination =>
      _ <- attr sampy "ls" ;;
      names <- lift (sampy_ls env) ;;
      retrieve env (normpath env destination) names
  | Put filepath =>
      _ <- attr sampy "put" ;; lift (sampy_put env (normpath env filepath))
  | Remove filepath => _ <- attr sampy "rm" ;; lift (sampy_rm env filepath)
  | MakeDir folder_name =>
      _ <- attr sampy "mkdir" ;; lift (sampy_mkdir env folder_name)
  | RemoveDir folder_name =>
      _ <- attr sampy "rmdir" ;; lift (sampy_rmdir env folder_name)
  | Help => ret tt
  end.

(** What an operation does outside any [try] before its protocol call:
    only [get_files] has such a step, [mkfolder(destination)]. *)
Definition preparation (env : Env) (op : Operation) : Result unit :=
  match op with
  | GetFiles destination => mkfolder env (normpath env destination)
  | _ => Ret tt
  end.

(** A protocol outcome the operation copes with: success, or an exception
    of a kind one of its [except] clauses names. *)
Definition handled (op : Operation) (r : Result unit) : bool :=
  match r with
  | Ret _ => true
  | Raise e => catches op (kind e)
  end.

(** Sample surroundings: a selected port (or none), the ports in use,
    and the outcomes of [sampy.run] and [sampy.get]; every other call
    succeeds. *)
Definition sample_env (selected : option Port) (used : list Port)
           (run : Result unit) (get : Result string) : Env :=
  mkEnv selected used [("COM3", SerialTask 1)]
        (fun p => Ret (SampyOn p))
        (fun _ => run)
        (Ret ["boot.py"; "lib/"])
        (fun _ => get)
        (fun _ _ => Ret tt)
        (fun _ => Ret tt) (fun _ => Ret tt) (fun _ => Ret tt) (fun _ => Ret tt)
        (fun path => last_field "/" path)
        (fun path => path)
        (fun a b => a +++ "/" +++ b)
        (fun _ => false)
        (fun _ => Ret tt) (fun _ => Ret tt) (fun _ => Ret tt)
        (fun _ => true)
        DIALOG_CANCEL.

Definition no_port_env : Env :=
  sample_env None [] (Ret tt) (Ret "print('hi')").

Definition open_port_env : Env :=
  sample_env (Some "COM3") ["COM3"] (Ret tt)
             (Ret ("import os" +++ crlf +++ "os.listdir()" +++ cr)).

Definition failing_run_env : Env :=
  sample_env (Some "COM3") []
             (Raise (mkExn RuntimeError "could not enter raw repl"))
             (Ret "").

(** The globals once [start_sampy] has bound the message view of port [p]. *)
Definition bound (p : option Port) : Globals := mkGlobals (Some (SinkOf p)) p.

(** [m], run with the globals bound to [p], leaves them bound to [p] and
    makes only calls that satisfy [Q]. *)
Definition steady (p : option Port) (Q : Event -> Prop) {A} (m : M A) : Prop :=
  globals (m (bound p)) = bound p /\ Forall Q (events (m (bound p))).

(** Every body an [except] clause of [handler] can run is steady. *)
Definition handler_ok (p : option Port) (Q : Event -> Prop) {A}
           (handler : Exn -> option (M A)) : Prop :=
  forall e h, handler e = Some h -> steady p Q h.

(** The call [ev] is about port [p]: what is printed or focused is the
    message view of [p], what is opened or reconnected is [p]. *)
Definition targets (p : option Port) (ev : Event) : Prop :=
  match ev with
  | MessageOpen q => q = p
  | EstablishConnection q => q = p
  | SetFocus t => t = SinkOf p
  | Print t _ => t = SinkOf p
  | NewSampy x _ => p = Some x
  | _ => True
  end.

Definition connects (ev : Event) : bool :=
  match ev with
  | NewSampy _ _ => true
  | _ => false
  end.

(** The calls [start_sampy] can make. *)
Definition starts_session (ev : Event) : Prop :=
  match ev with
  | StopTask _ | MessageOpen _ | SetFocus _ | NewSampy _ _ => True
  | _ => False
  end.

(** When [get_files] may add [folder] to the project, and how. *)
Definition adds_after_prompt (env : Env) (folder : string) (ev : Event) : Prop :=
  forall args,
    ev = WindowCommand "upiot_add_project" args ->
    check_sidebar_folder env folder = false
    /\ ((yes_no_cancel_dialog env = DIALOG_YES /\ args = Some (folder, false))
        \/ (yes_no_cancel_dialog env = DIALOG_NO
            /\ args = Some (folder, true))).

(** The first text each operation prints: its header, or the usage text. *)
Definition header (env : Env) (op : Operation) : string :=
  match op with
  | Run filepath =>
      nl +++ nl +++ ">> Run " +++ basename env filepath +++ nl +++ nl
      +++ chr DQUOTE +++ "ctrl+shift+c" +++ chr DQUOTE
      +++ " to stop the script." +++ nl +++ "---"
  | List => nl +++ nl +++ ">> sampy ls" +++ nl
  | Get filename => nl +++ nl +++ ">> get " +++ filename
  | GetFiles destination =>
      nl +++ nl +++ ">> Storing in " +++ normpath env destination +++ nl
  | Put filepath => nl +++ nl +++ ">> put " +++ basename env filepath
  | Remove filepath => nl +++ nl +++ ">> rm " +++ basename env filepath
  | MakeDir folder_name => nl +++ nl +++ ">> mkdir " +++ folder_name
  | RemoveDir folder_name => nl +++ nl +++ ">> rmdir " +++ folder_name
  | Help => _help
  end.

(** Further sample surroundings: whether the connection can be opened,
    whether the device takes a file, whether local files can be written,
    whether the folder is already in the side bar, and the button pressed
    in the dialog. *)
Definition make_env (connect : Port -> Result Sampy)
           (put : string -> Result unit)
           (open_file : string -> Result unit) (in_sidebar : bool)
           (answer : Answer) : Env :=
  mkEnv (Some "COM3") [] []
        connect
        (fun _ => Ret tt)
        (Ret ["boot.py"; "lib/"])
        (fun _ => Ret "")
        (fun _ _ => Ret tt)
        put (fun _ => Ret tt) (fun _ => Ret tt) (fun _ => Ret tt)
        (fun path => last_field "/" path)
        (fun path => path)
        (fun a b => a +++ "/" +++ b)
        (fun _ => false)
        (fun _ => Ret tt) (fun _ => Ret tt) open_file
        (fun _ => in_sidebar)
        answer.

Definition prompting_env : Env :=
  make_env (fun p => Ret (SampyOn p)) (fun _ => Ret tt) (fun _ => Ret tt)
           false DIALOG_NO.

Definition refusing_env : Env :=
  make_env (fun _ => Raise (mkExn PyboardError "failed to access COM3"))
           (fun _ => Ret tt) (fun _ => Ret tt) true DIALOG_CANCEL.

Definition read_only_env : Env :=
  make_env (fun p => Ret (SampyOn p)) (fun _ => Ret tt)
           (fun _ => Raise (mkExn OSError "Read-only file system"))
           true DIALOG_CANCEL.

Definition rejecting_env : Env :=
  make_env (fun p => Ret (SampyOn p))
           (fun _ => Raise (mkExn PyboardError "no space left on device"))
           (fun _ => Ret tt) true DIALOG_CANCEL.

End SampyManager.

(** ** [commands/burn_firmware.py]: the command object around [burn_firmware] *)
Module BurnCommand.
Import PyStr.

(** The attributes of the command object; the class sets all of them to
    [None]. *)
Record State : Type := mkState {
  port : option string;
  items : option (list string);
  firmwares : option string;
  url : option string
}.

Definition fresh : State := mkState None None None None.

(** Calls that leave the command object, in program order. *)
Inductive Event : Type :=
| RunWindowCommand (name : string)
| QuickPanel (items : option (list string))
| SetTimeoutAsync.

(** The exceptions these methods can end in: [IndexError] from
    [self.items[selection]], [TypeError] from subscripting [None] or from
    [join(None, '*')], [AttributeError] from [None.append]. *)
Inductive Fault : Type :=
| IndexError
| NoneNotSubscriptable
| NoneHasNoAppend
| JoinOfNone.

(** What the surroundings answer: [serial.selected_port(request_port=True)],
    the [board] setting, [paths.firmware_folder], [glob], [os.path.join] and
    [os.path.basename]. *)
Record Env : Type := mkEnv {
  selected_port : option string;
  board : option string;
  firmware_folder : option string -> string;
  glob : string -> list string;
  join : string -> string -> string;
  basename : string -> string
}.

Record Out : Type := mkOut {
  state : State;
  events : list Event;
  raised : option Fault
}.

Definition truthy (p : option string) : bool :=
  match p with
  | None => false
  | Some EmptyString => false
  | Some (String _ _) => true
  end.

(** [l[i]] for a Python list and an [int]: a negative index counts from the
    end; outside [-len, len) there is no element. *)
Definition py_index {A} (l : list A) (i : Z) : option A :=
  let n := Z.of_nat (length l) in
  let j := if (i <? 0)%Z then (i + n)%Z else i in
  if ((0 <=? j)%Z && (j <? n)%Z)%bool then nth_error l (Z.to_nat j) else None.

(** The [for firmware in glob(firm_path)] loop of [firmware_list]. *)
Fixpoint firmware_loop (env : Env) (found : list string) (st : State) : Out :=
  match found with
  | [] => mkOut st [] None
  | firmware :: rest =>
      let name := basename env firmware in
      match items st with
      | None => mkOut st [] (Some NoneHasNoAppend)
      | Some l =>
          firmware_loop env rest
            (mkState (port st) (Some (l ++ [name])) (firmwares st) (url st))
      end
  end.

Definition firmware_list (env : Env) (st : State) : Out :=
  match firmwares st with
  | None => mkOut st [] (Some JoinOfNone)
  | Some folder =>
      let firm_path := join env folder "*" in
      firmware_loop env (glob env firm_path) st
  end.

Definition run (env : Env) (selected : bool) (st : State) : Out :=
  let st := mkState (selected_port env) (items st) (firmwares st) (url st) in
  if negb (truthy (port st)) then mkOut st [] None
  else
    let st := mkState (port st) (Some []) (firmwares st) (url st) in
    if negb selected
    then mkOut st [RunWindowCommand "upiot_select_board"] None
    else
      let st := mkState (port st) (items st)
                        (Some (firmware_folder env (board env))) (url st) in
      let o := firmware_list env st in
      match raised o with
      | Some _ => o
      | None => mkOut (state o) (events o ++ [QuickPanel (items (state o))]) None
      end.

Definition callback_selection (selection : Z) (st : State) : Out :=
  if (selection =? -1)%Z then mkOut st [] None
  else
    match items st with
    | None => mkOut st [] (Some NoneNotSubscriptable)
    | Some l =>
        match py_index l selection with
        | None => mkOut st [] (Some IndexError)
        | Some u =>
            mkOut (mkState (port st) (items st) (firmwares st) (Some u))
                  [SetTimeoutAsync] None
        end
    end.

(** The object as [burn_firmware] reads it, once [run] and
    [callback_selection] have set its attributes. *)
Definition self_of (st : State) : option BurnFirmware.Self :=
  match port st, firmwares st, url st with
  | Some p, Some f, Some u => Some (BurnFirmware.mkSelf p f u)
  | _, _, _ => None
  end.

(** The entries [run] offers: the base names of what [glob] finds in the
    firmware folder of the board. *)
Definition offered (env : Env) : list string :=
  map (basename env)
      (glob env (join env (firmware_folder env (board env)) "*")).

Definition sample_env : Env :=
  mkEnv (Some "COM3") (Some "esp32")
        (fun _ => "firmwares/esp32")
        (fun _ => ["firmwares/esp32/a.bin"; "firmwares/esp32/b.bin"])
        (fun a b => a +++ "/" +++ b)
        (fun path => last_field "/" path).

End BurnCommand.



(** * Properties *)

Import PyStr.

(** ** Strings *)

Lemma startswith_spec (s p : string) :
  startswith s p = true <-> exists q, s = p +++ q.
Proof.
  revert s; induction p as [|a p IH]; intros s; simpl.
  - split; [intros _; now exists s | reflexivity].
  - destruct s as [|b s].
    + split; [discriminate | intros [q H]; discriminate].
    + rewrite andb_true_iff, Ascii.eqb_eq, IH. split.
      * intros [-> [q ->]]. now exists q.
      * intros [q H]. injection H as -> ->. split; [reflexivity | now exists q].
Qed.

Lemma endswith_spec (s suf : string) :
  endswith s suf = true <-> exists p, s = p +++ suf.
Proof.
  induction s as [|c s IH]; cbn [endswith].
  - rewrite orb_false_r, String.eqb_eq. split.
    + intros <-. now exists "".
    + intros [p H]. destruct p; simpl in H; [assumption | discriminate].
  - rewrite orb_true_iff, String.eqb_eq, IH. split.
    + intros [<- | [p ->]]; [now exists "" | now exists (String c p)].
    + intros [p H]. destruct p as [|d p]; simpl in H.
      * now left.
      * injection H as -> ->. right. now exists p.
Qed.

Lemma contains_spec (sub s : string) :
  contains sub s = true <-> exists p q, s = p +++ sub +++ q.
Proof.
  induction s as [|c s IH]; cbn [contains].
  - rewrite orb_false_r, startswith_spec. split.
    + intros [q H]. now exists "", q.
    + intros [p [q H]]. destruct p; simpl in H; [now exists q | discriminate].
  - rewrite orb_true_iff, startswith_spec, IH. split.
    + intros [[q H] | [p [q ->]]]; [now exists "", q | now exists (String c p), q].
    + intros [p [q H]]. destruct p as [|d p]; simpl in H.
      * left. now exists q.
      * injection H as -> ->. right. now exists p, q.
Qed.

(** ** Firmware option compiler *)
Section FirmwareOptions.
Import BurnFirmware.

Lemma options_loop_emitted (items : list (string * string)) (options : list string) :
  options_loop items options
  = options ++ map (fun entry => format_option (fst entry) (snd entry))
                   (filter passes items).
Proof.
  revert options; induction items as [|[key value] rest IH]; intros options.
  - simpl. now rewrite app_nil_r.
  - cbn [options_loop filter]. unfold passes at 1. cbn [fst].
    destruct (negb (contains write_flash key)).
    + rewrite IH. cbn [map fst snd]. now rewrite <- app_assoc.
    + apply IH.
Qed.

Lemma board_options_emitted (board_file : BoardFile) (upload : Upload) (wf : string) :
  Dict.get board_file "upload" = Ret upload ->
  Dict.get upload write_flash = Ret wf ->
  board_options board_file = Ret (emitted upload ++ ["write_flash " +++ wf]).
Proof.
  intros Hu Hw. unfold board_options. rewrite Hu, Hw.
  now rewrite options_loop_emitted.
Qed.

(** An argument built for a key equals a [write_flash] argument only when
    the key itself contains [write_flash]. *)
Lemma format_option_write_flash (key value wf : string) :
  format_option key value = "write_flash " +++ wf ->
  contains write_flash key = true.
Proof.
  unfold format_option, separator.
  do 11 (destruct key as [|? key];
         [ simpl; intros H; discriminate H
         | intros H; cbn [String.append] in H; injection H as -> H; revert H ]).
  intros _. reflexivity.
Qed.

Lemma emitted_no_write_flash (upload : Upload) (wf : string) :
  ~ In ("write_flash " +++ wf) (emitted upload).
Proof.
  unfold emitted. intros H. apply in_map_iff in H.
  destruct H as [[key value] [Heq Hin]]. apply filter_In in Hin.
  destruct Hin as [_ Hp]. apply format_option_write_flash in Heq.
  unfold passes in Hp. cbn [fst snd] in *. rewrite Heq in Hp. discriminate.
Qed.

(** C1: when the upload section has the key [write_flash], the list
    [get_board_options] returns ends with the argument
    ["write_flash " + value]; that argument occurs nowhere before its last
    position, so it occurs exactly once, wherever the key stood in the
    input.  The upload of the example compiles to the list the spec gives. *)
Theorem write_flash_last_and_once
  (env : Env) (board : string) (board_file : BoardFile)
  (upload : Upload) (wf : string)
  (Hload : load_board env board = Ret board_file)
  (Hupload : Dict.get board_file "upload" = Ret upload)
  (Hwf : Dict.get upload write_flash = Ret wf) :
  (exists front,
      get_board_options env board = Ret (front ++ ["write_flash " +++ wf])
      /\ ~ In ("write_flash " +++ wf) front
      /\ count_occ string_dec (front ++ ["write_flash " +++ wf])
                   ("write_flash " +++ wf) = 1)
  /\ board_options [("upload", esp32_upload)]
     = Ret ["--flash_mode=dio"; "--flash_freq 40m";
            "write_flash 0x1000 firmware.bin"].
Proof.
  split; [| reflexivity].
  exists (emitted upload). repeat split.
  - unfold get_board_options. rewrite Hload.
    now apply board_options_emitted.
  - apply emitted_no_write_flash.
  - rewrite count_occ_app.
    pose proof (emitted_no_write_flash upload wf) as Hn.
    apply (count_occ_not_In string_dec) in Hn. rewrite Hn.
    cbn [count_occ]. destruct (string_dec _ _); [reflexivity | congruence].
Qed.

Lemma write_flash_last_and_once_witness :
  exists front,
    get_board_options (board_env size_upload DIALOG_NO true) "esp32"
    = Ret (front ++ ["write_flash 0x1000 firmware.bin"])
    /\ ~ In "write_flash 0x1000 firmware.bin" front.
Proof.
  destruct (@write_flash_last_and_once
              (board_env size_upload DIALOG_NO true) "esp32"
              [("upload", size_upload)] size_upload "0x1000 firmware.bin"
              eq_refl eq_refl eq_refl) as [[front [H1 [H2 _]]] _].
  exists front. split; assumption.
Defined.

(** C4, as the spec states it, fails: a key that merely contains
    [write_flash] is dropped although it is not the reserved key. *)
Lemma other_key_omitted :
  board_options [("upload", size_upload)]
  = Ret ["write_flash 0x1000 firmware.bin"]
  /\ ~ emits_every_other_key size_upload ["write_flash 0x1000 firmware.bin"].
Proof.
  split; [reflexivity |].
  intros H.
  specialize (H "--write_flash_size" "4MB" (or_introl eq_refl)).
  assert (Hne : "--write_flash_size" <> write_flash) by discriminate.
  specialize (H Hne). cbn in H.
  destruct H as [H | []]. discriminate H.
Qed.

(** C4, amended: [get_board_options] walks the upload section in iteration
    order and returns one argument [key + separator + value] for every key
    that does not contain the text [write_flash], no such key being left
    out, followed by the [write_flash] argument. *)
Theorem emits_keys_without_write_flash
  (env : Env) (board : string) (board_file : BoardFile)
  (upload : Upload) (wf : string)
  (Hload : load_board env board = Ret board_file)
  (Hupload : Dict.get board_file "upload" = Ret upload)
  (Hwf : Dict.get upload write_flash = Ret wf) :
  get_board_options env board
  = Ret (map (fun entry => format_option (fst entry) (snd entry))
             (filter passes (Dict.items upload))
         ++ ["write_flash " +++ wf])
  /\ (forall key value,
         In (key, value) (Dict.items upload) ->
         contains write_flash key = false ->
         In (format_option key value) (emitted upload))
  /\ length (emitted upload) = length (filter passes (Dict.items upload)).
Proof.
  repeat split.
  - unfold get_board_options. rewrite Hload.
    now apply board_options_emitted.
  - intros key value Hin Hc. unfold emitted. apply in_map_iff.
    exists (key, value). split; [reflexivity |].
    apply filter_In. split; [assumption |].
    unfold passes. cbn [fst]. now rewrite Hc.
  - unfold emitted. apply length_map.
Qed.

Lemma emits_keys_without_write_flash_witness :
  get_board_options (board_env esp32_upload DIALOG_NO true) "esp32"
  = Ret ["--flash_mode=dio"; "--flash_freq 40m";
         "write_flash 0x1000 firmware.bin"].
Proof.
  exact (proj1 (@emits_keys_without_write_flash
                  (board_env esp32_upload DIALOG_NO true) "esp32"
                  [("upload", esp32_upload)] esp32_upload
                  "0x1000 firmware.bin" eq_refl eq_refl eq_refl)).
Defined.

(** C5: an emitted key that ends with [=] is followed by its value
    directly; any other emitted key is followed by one space and then the
    value. *)
Theorem separator_rule
  (env : Env) (board : string) (board_file : BoardFile)
  (upload : Upload) (out : list string) (key value : string)
  (Hload : load_board env board = Ret board_file)
  (Hupload : Dict.get board_file "upload" = Ret upload)
  (Hout : get_board_options env board = Ret out)
  (Hin : In (key, value) (Dict.items upload))
  (Hemit : contains write_flash key = false) :
  ((exists stem, key = stem +++ "=") ->
   format_option key value = key +++ value /\ In (key +++ value) out)
  /\ (~ (exists stem, key = stem +++ "=") ->
      format_option key value = key +++ " " +++ value
      /\ In (key +++ " " +++ value) out).
Proof.
  assert (Hmem : In (format_option key value) out).
  { unfold get_board_options in Hout. rewrite Hload in Hout.
    unfold board_options in Hout. rewrite Hupload in Hout.
    destruct (Dict.get upload write_flash) as [wf | e]; [| discriminate].
    injection Hout as <-. rewrite options_loop_emitted. cbn [app].
    apply in_or_app. left. apply in_map_iff. exists (key, value).
    split; [reflexivity |]. apply filter_In. split; [assumption |].
    unfold passes. cbn [fst]. now rewrite Hemit. }
  unfold format_option, separator in *.
  split; intros H.
  - apply endswith_spec in H. rewrite H in *. cbn [String.append] in *.
    now split.
  - destruct (endswith key "=") eqn:E.
    + exfalso. apply H. now apply endswith_spec.
    + now split.
Qed.

Lemma separator_rule_witness :
  In "--flash_mode=dio"
     ["--flash_mode=dio"; "--flash_freq 40m";
      "write_flash 0x1000 firmware.bin"]
  /\ In "--flash_freq 40m"
        ["--flash_mode=dio"; "--flash_freq 40m";
         "write_flash 0x1000 firmware.bin"].
Proof.
  split.
  - refine (proj2 (proj1 (@separator_rule
              (board_env esp32_upload DIALOG_NO true) "esp32"
              [("upload", esp32_upload)] esp32_upload _
              "--flash_mode=" "dio" eq_refl eq_refl eq_refl
              (or_introl eq_refl) eq_refl) _)).
    now exists "--flash_mode".
  - refine (proj2 (proj2 (@separator_rule
              (board_env esp32_upload DIALOG_NO true) "esp32"
              [("upload", esp32_upload)] esp32_upload _
              "--flash_freq" "40m" eq_refl eq_refl eq_refl
              (or_intror (or_introl eq_refl)) eq_refl) _)).
    intros [stem H].
    assert (E : endswith "--flash_freq" "=" = true)
      by (apply endswith_spec; now exists stem).
    discriminate E.
Defined.

End FirmwareOptions.

(** ** Flash workflow *)
Section FlashWorkflow.
Import BurnFirmware.

(** C9: when the erase prompt is answered Cancel, [burn_firmware] makes no
    call besides the prompt itself: the console is not shown, nothing is
    erased, the port is not checked and the flashing process is not run;
    the list [options] is left as the compiled options followed by the
    firmware path, with no port argument in front. *)
Theorem cancel_aborts (env : Env) (self : Self)
  (Hcancel : yes_no_cancel_dialog env = DIALOG_CANCEL) :
  forallb is_dialog (trace (burn_firmware env self)) = true
  /\ ~ In ShowConsole (trace (burn_firmware env self))
  /\ ~ In EraseFlash (trace (burn_firmware env self))
  /\ (forall p, ~ In (CheckPort p) (trace (burn_firmware env self)))
  /\ (forall opts, ~ In (RunCommand opts) (trace (burn_firmware env self)))
  /\ match get_board_options env "esp32" with
     | Ret compiled =>
         options (burn_firmware env self)
         = Some (compiled
                 ++ [join env (firmwares self) (last_field "/" (url self))])
     | Raise _ => options (burn_firmware env self) = None
     end.
Proof.
  unfold burn_firmware. rewrite Hcancel.
  destruct (get_board_options env "esp32") as [compiled | e]; cbn.
  - repeat split; try reflexivity; intros; intros [H | []]; discriminate H.
  - repeat split; try reflexivity; intros; intros [].
Qed.

Lemma cancel_aborts_witness :
  trace (burn_firmware (board_env esp32_upload DIALOG_CANCEL true) some_self)
  = [YesNoCancelDialog caption "Yes" "No"]
  /\ ~ In EraseFlash
       (trace (burn_firmware (board_env esp32_upload DIALOG_CANCEL true)
                             some_self)).
Proof.
  split; [reflexivity |].
  exact (proj1 (proj2 (proj2 (@cancel_aborts
           (board_env esp32_upload DIALOG_CANCEL true) some_self eq_refl)))).
Defined.

(** C10: when the erase prompt is answered Yes, the erase step runs before
    the port is checked; if the check then fails the flashing process is
    not run, but the erase has been done. *)
Theorem erase_precedes_port_check
  (env : Env) (self : Self) (compiled : list string)
  (Hopts : get_board_options env "esp32" = Ret compiled)
  (Hyes : yes_no_cancel_dialog env = DIALOG_YES) :
  (exists rest,
      trace (burn_firmware env self)
      = [YesNoCancelDialog caption "Yes" "No"; ShowConsole; EraseFlash;
         CheckPort (port self)] ++ rest
      /\ (check_port env (port self) = false -> rest = [])
      /\ (check_port env (port self) = true ->
          rest = [RunCommand
                    (("--port " +++ port self)
                       :: compiled
                       ++ [join env (firmwares self)
                                (last_field "/" (url self))])]))
  /\ (check_port env (port self) = false ->
      In EraseFlash (trace (burn_firmware env self))
      /\ forall opts, ~ In (RunCommand opts) (trace (burn_firmware env self))).
Proof.
  unfold burn_firmware. rewrite Hopts, Hyes.
  destruct (check_port env (port self)); cbn.
  - split.
    + eexists. split; [reflexivity |]. split; [discriminate | reflexivity].
    + discriminate.
  - split.
    + exists []. split; [reflexivity |]. split; [reflexivity | discriminate].
    + intros _. split; [tauto |].
      intros opts H.
      repeat (destruct H as [H | H]; [discriminate H |]). exact H.
Qed.

Lemma erase_precedes_port_check_witness :
  In EraseFlash
     (trace (burn_firmware (board_env esp32_upload DIALOG_YES false) some_self))
  /\ forall opts,
      ~ In (RunCommand opts)
        (trace (burn_firmware (board_env esp32_upload DIALOG_YES false)
                              some_self)).
Proof.
  exact (proj2 (@erase_precedes_port_check
                  (board_env esp32_upload DIALOG_YES false) some_self
                  _ eq_refl eq_refl) eq_refl).
Defined.

End FlashWorkflow.

(** ** Line endings *)
Section LineEndings.
Import SampyManager.

Lemma replace_cr_step (c : ascii) (t : string) :
  replace_from cr nl 0 (String c t)
  = String (if Ascii.eqb c CR then LF else c) (replace_from cr nl 0 t).
Proof.
  cbn [replace_from startswith cr chr].
  rewrite andb_true_r, Ascii.eqb_sym.
  destruct (Ascii.eqb c CR); reflexivity.
Qed.

Lemma replace_cr_no_cr (t : string) :
  has_char CR (replace_from cr nl 0 t) = false.
Proof.
  induction t as [|c t IH]; [reflexivity |].
  rewrite replace_cr_step. cbn [has_char]. rewrite IH, orb_false_r.
  destruct (Ascii.eqb_spec c CR) as [-> | Hne]; [reflexivity |].
  now apply Ascii.eqb_neq.
Qed.

Lemma replace_crlf_step (c : ascii) (t : string) :
  replace_from crlf nl 0 (String c t)
  = if Ascii.eqb c CR
    then match t with
         | String d t' =>
             if Ascii.eqb d LF then String LF (replace_from crlf nl 0 t')
             else String c (replace_from crlf nl 0 t)
         | EmptyString => String c EmptyString
         end
    else String c (replace_from crlf nl 0 t).
Proof.
  cbn [replace_from startswith crlf].
  rewrite (Ascii.eqb_sym CR c).
  destruct (Ascii.eqb c CR); [| reflexivity].
  destruct t as [|d t']; [reflexivity |].
  rewrite (Ascii.eqb_sym LF d), andb_true_r.
  destruct (Ascii.eqb d LF); reflexivity.
Qed.

Lemma normalize_line_breaks (s : string) : normalize s = line_breaks s.
Proof.
  unfold normalize, replace. cbn [crlf cr chr].
  change (String CR (String LF "")) with crlf.
  change (String CR "") with cr.
  enough (H : (replace_from cr nl 0 (replace_from crlf nl 0 s) = line_breaks s)
              /\ forall c, replace_from cr nl 0
                             (replace_from crlf nl 0 (String c s))
                           = line_breaks (String c s)) by apply H.
  induction s as [|d s [IH0 IH1]].
  - split; [reflexivity |]. intros c.
    rewrite replace_crlf_step. cbn [line_breaks].
    destruct (Ascii.eqb c CR) eqn:E; rewrite replace_cr_step, E; reflexivity.
  - split; [apply IH1 |]. intros c.
    rewrite replace_crlf_step. cbn [line_breaks].
    destruct (Ascii.eqb c CR) eqn:E.
    + destruct (Ascii.eqb d LF) eqn:F.
      * rewrite replace_cr_step. cbn. now rewrite IH0.
      * rewrite replace_cr_step, E. now rewrite IH1.
    + rewrite replace_cr_step, E. now rewrite IH1.
Qed.

End LineEndings.

(** ** Sampy dispatcher *)
Section Dispatcher.
Import SampyManager.

Lemma start_sampy_quiet (env : Env) (g : Globals) :
  start_sampy env true g
  = mkOut (Ret None)
          (mkGlobals (Some (SinkOf (selected_port env))) (selected_port env))
          [MessageOpen (selected_port env);
           SetFocus (SinkOf (selected_port env))].
Proof.
  unfold start_sampy. rewrite !andb_false_r.
  destruct (selected_port env); reflexivity.
Qed.

Lemma start_sampy_returns (env : Env) (quiet : bool) (g : Globals)
      (sampy : option Sampy) :
  value (start_sampy env quiet g) = Ret sampy ->
  globals (start_sampy env quiet g)
  = mkGlobals (Some (SinkOf (selected_port env))) (selected_port env)
  /\ finished_count (events (start_sampy env quiet g)) = 0
  /\ focus_count (events (start_sampy env quiet g)) = 1
  /\ printed (events (start_sampy env quiet g)) = [].
Proof.
  unfold start_sampy.
  destruct (port_in (selected_port env) (in_use env) && negb quiet);
    destruct (selected_port env) as [[|c x]|]; cbn;
    try (destruct (Dict.get (serial_dict env) _); cbn);
    try (destruct quiet; cbn);
    try (destruct (new_sampy env _); cbn);
    intros H; try discriminate H; repeat split; reflexivity.
Qed.

Lemma finished_count_app (a b : list Event) :
  finished_count (a ++ b) = finished_count a + finished_count b.
Proof.
  induction a as [|ev a IH]; [reflexivity |].
  destruct ev; cbn; rewrite IH; reflexivity.
Qed.

Lemma bind_returned {A B} (m : M A) (f : A -> M B) (g g' : Globals)
      (a : A) (tr : list Event) :
  m g = mkOut (Ret a) g' tr ->
  bind m f g
  = mkOut (value (f a g')) (globals (f a g')) (tr ++ events (f a g')).
Proof. intros H. unfold bind. rewrite H. reflexivity. Qed.

(** The loop of [get_files] leaves the globals alone and never reaches
    [finished_action]. *)
Lemma retrieve_frame (env : Env) (destination : string) (names : list string)
      (t : Sink) (p : option Port) :
  globals (retrieve env destination names (mkGlobals (Some t) p))
  = mkGlobals (Some t) p
  /\ finished_count
       (events (retrieve env destination names (mkGlobals (Some t) p))) = 0.
Proof.
  induction names as [|filename rest [IHg IHf]]; [split; reflexivity |].
  cbn [retrieve].
  destruct (endswith filename "/").
  - destruct (path_exists env _); cbn.
    + now split.
    + destruct (mkdir env _); cbn; now split.
  - cbn. destruct (open_wb env _); cbn; [| now split].
    destruct (sampy_get_into env _ _); cbn; now split.
Qed.

Lemma print_names_out (names : list string) (t : Sink) (p : option Port) :
  print_names names (mkGlobals (Some t) p)
  = mkOut (Ret tt) (mkGlobals (Some t) p)
          (map (fun filename => Print t (nl +++ filename)) names).
Proof.
  induction names as [|filename rest IH]; [reflexivity |].
  cbn [print_names map]. unfold bind at 1. cbn. now rewrite IH.
Qed.

Lemma finished_count_prints (t : Sink) (f : string -> string)
      (names : list string) :
  finished_count (map (fun filename => Print t (f filename)) names) = 0.
Proof. induction names as [|filename rest IH]; [reflexivity | exact IH]. Qed.

(** Split the outcome of the protocol call on the hypothesis first, so
    that only the outcomes the operation copes with are carried on. *)
Ltac unfold_call H :=
  unfold protocol_call, bind, lift, ret, raise, attr in H;
  cbn in H; unfold handled in H.

Ltac settle_call H :=
  unfold_call H;
  repeat match type of H with
         | context [match ?x with _ => _ end] =>
             lazymatch x with
             | context [match _ with _ => _ end] => fail
             | _ => destruct x as [? | [[] ?]]; cbn in H; try discriminate H
             end
         end;
  try discriminate H;
  split; vm_compute; reflexivity.

(** C2, amended: when the start of the session returns, the preparation
    outside the [try] succeeds and the protocol call either succeeds or
    raises an exception of a kind the operation has an [except] clause
    for, the operation returns normally and [finished_action] has run
    exactly once. *)
Theorem finished_once_when_handled
  (env : Env) (op : Operation) (g : Globals) (sampy : option Sampy)
  (Hstart : value (start_sampy env (quiet_of op) g) = Ret sampy)
  (Hprep : preparation env op = Ret tt)
  (Hcall : handled op
             (value (protocol_call env sampy op
                       (globals (start_sampy env (quiet_of op) g)))) = true) :
  value (dispatch env op g) = Ret tt
  /\ finished_count (events (dispatch env op g)) = 1.
Proof.
  destruct (start_sampy_returns _ _ _ Hstart) as [Hg [Hf _]].
  destruct (start_sampy env (quiet_of op) g) as [v G tr] eqn:E.
  cbn in Hstart, Hg, Hf. subst v G.
  destruct op; cbn [dispatch quiet_of] in *.
  all: unfold run_file, list_files, get_file, get_files, put_file,
         remove_file, make_folder, remove_folder, help.
  all: rewrite (@bind_returned _ _ _ _ _ _ _ _ E); clear E;
    cbn [value events]; rewrite finished_count_app, Hf.
  1, 3, 5-9: destruct sampy; settle_call Hcall.
  - (* list_files *)
    destruct sampy; [| settle_call Hcall].
    unfold_call Hcall.
    destruct (sampy_ls env) as [names | [[] ?]]; cbn in Hcall;
      try discriminate Hcall; try (split; vm_compute; reflexivity).
    lazy -[print_names finished_count app].
    rewrite print_names_out.
    lazy -[finished_count app map].
    split; [reflexivity |].
    rewrite !finished_count_app, finished_count_prints. reflexivity.
  - (* get_files *)
    cbn in Hprep.
    destruct sampy.
    2: { lazy -[finished_count app mkfolder normpath]. rewrite Hprep.
         split; vm_compute; reflexivity. }
    unfold_call Hcall.
    destruct (sampy_ls env) as [names | [[] ?]]; cbn in Hcall;
      try discriminate Hcall.
    2: { lazy -[finished_count app mkfolder normpath]. rewrite Hprep.
         split; vm_compute; reflexivity. }
    destruct (retrieve_frame env (normpath env destination) names
                (SinkOf (selected_port env)) (selected_port env))
      as [Rg Rf].
    lazy -[retrieve finished_count app mkfolder normpath check_sidebar_folder
           yes_no_cancel_dialog selected_port] in Hcall |- *.
    rewrite Hprep.
    lazy -[retrieve finished_count app mkfolder normpath check_sidebar_folder
           yes_no_cancel_dialog selected_port].
    destruct (retrieve env (normpath env destination) names _)
      as [rv rG rtr].
    cbn in Rg, Rf. subst rG.
    destruct rv as [[] | [[] ?]]; cbn in Hcall; try discriminate Hcall;
      destruct (check_sidebar_folder env (normpath env destination));
      destruct (yes_no_cancel_dialog env);
      lazy -[finished_count app];
      (split; [reflexivity | rewrite !finished_count_app, Rf; reflexivity]).
Qed.

Lemma finished_once_when_handled_witness :
  value (dispatch open_port_env (Get "boot.py") initial) = Ret tt
  /\ finished_count (events (dispatch open_port_env (Get "boot.py") initial))
     = 1.
Proof.
  exact (@finished_once_when_handled open_port_env (Get "boot.py") initial
           (Some (SampyOn "COM3")) eq_refl eq_refl eq_refl).
Defined.

(** C2, as the spec states it, fails: a remote failure in [run_file] is
    not among the kinds its [except] clause names, so the exception
    leaves the operation and [finished_action] is not reached. *)
Lemma finished_skipped_on_uncaught :
  value (dispatch failing_run_env (Run "main.py") initial)
  = Raise (mkExn RuntimeError "could not enter raw repl")
  /\ finished_count (events (dispatch failing_run_env (Run "main.py") initial))
     = 0.
Proof. split; vm_compute; reflexivity. Qed.

(** C3: evaluated on the input of the spec, [get_file] with no session
    prints only its header; the [AttributeError] of the missing session is
    not caught, the not-ready message is not printed and
    [finished_action] is not reached. *)
Theorem get_file_without_session :
  value (get_file no_port_env "boot.py" initial)
  = Raise (no_attribute "get")
  /\ printed (events (get_file no_port_env "boot.py" initial))
     = [nl +++ nl +++ ">> get boot.py"]
  /\ finished_count (events (get_file no_port_env "boot.py" initial)) = 0.
Proof. repeat split; vm_compute; reflexivity. Qed.

Lemma printed_app (a b : list Event) :
  printed (a ++ b) = printed a ++ printed b.
Proof.
  induction a as [|ev a IH]; [reflexivity |].
  destruct ev; cbn; rewrite IH; reflexivity.
Qed.

(** C7: the content [get_file] fetched (or the message of a caught
    [RuntimeError]) is printed after [normalize]; the normalized text is
    the input with every carriage return plus line feed, and every other
    carriage return, turned into one line feed, and it holds no carriage
    return. *)
Theorem get_file_normalizes
  (env : Env) (g : Globals) (filename : string) (sampy : Sampy)
  (content : string)
  (Hstart : value (start_sampy env false g) = Ret (Some sampy))
  (Hget : sampy_get env filename = Ret content
          \/ sampy_get env filename = Raise (mkExn RuntimeError content)) :
  printed (events (get_file env filename g))
  = [nl +++ nl +++ ">> get " +++ filename; nl +++ nl +++ normalize content]
  /\ normalize content = line_breaks content
  /\ has_char CR (normalize content) = false
  /\ has_char CR (nl +++ nl +++ normalize content) = false.
Proof.
  assert (Hcr : has_char CR (normalize content) = false).
  { unfold normalize, replace. apply replace_cr_no_cr. }
  repeat split.
  - destruct (start_sampy_returns _ _ _ Hstart) as [Hg [_ [_ Hp]]].
    destruct (start_sampy env false g) as [v G tr] eqn:E.
    cbn in Hstart, Hg, Hp. subst v G.
    unfold get_file. rewrite (@bind_returned _ _ _ _ _ _ _ _ E).
    cbn [events]. rewrite printed_app, Hp.
    destruct Hget as [Hget | Hget];
      lazy -[normalize String.append sampy_get];
      rewrite Hget; reflexivity.
  - apply normalize_line_breaks.
  - exact Hcr.
  - cbn. exact Hcr.
Qed.

Lemma get_file_normalizes_witness :
  printed (events (get_file open_port_env "boot.py" initial))
  = [nl +++ nl +++ ">> get boot.py";
     nl +++ nl +++ "import os" +++ nl +++ "os.listdir()" +++ nl].
Proof.
  exact (proj1 (@get_file_normalizes open_port_env initial "boot.py"
                  (SampyOn "COM3") _ eq_refl (or_introl eq_refl))).
Defined.

(** C8, as the spec states it, fails: a quiet start still calls
    [txt.set_focus()]. *)
Lemma quiet_start_focuses :
  events (start_sampy open_port_env true initial)
  = [MessageOpen (Some "COM3"); SetFocus (SinkOf (Some "COM3"))]
  /\ focus_count (events (start_sampy open_port_env true initial)) = 1.
Proof. split; reflexivity. Qed.

Lemma get_raises {V} (d : Dict.t V) (key : string) (e : Exn) :
  Dict.get d key = Raise e -> e = mkExn KeyError key.
Proof.
  induction d as [|[k v] d IH]; cbn.
  - intros H. now injection H.
  - destruct (String.eqb k key); [discriminate | exact IH].
Qed.

(** C8, amended: [start_sampy] brings the message view of the selected
    port to the foreground exactly once whether [quiet] is true or false;
    a quiet start does only that (no stop signal, no connection, no
    [Sampy] returned).  The one run without a focus call is a start that
    is not quiet and fails with [KeyError] while looking up the serial
    task to stop. *)
Theorem start_sampy_focus (env : Env) (g : Globals) :
  events (start_sampy env true g)
  = [MessageOpen (selected_port env); SetFocus (SinkOf (selected_port env))]
  /\ value (start_sampy env true g) = Ret None
  /\ (focus_count (events (start_sampy env false g)) = 1
      \/ (focus_count (events (start_sampy env false g)) = 0
          /\ exists key,
              value (start_sampy env false g) = Raise (mkExn KeyError key))).
Proof.
  rewrite start_sampy_quiet. repeat split.
  unfold start_sampy.
  destruct (selected_port env) as [x |]; [| left; reflexivity].
  destruct (port_in (Some x) (in_use env)); cbn [andb negb]; cbv beta iota.
  - destruct (Dict.get (serial_dict env) x) as [r | e] eqn:D.
    + destruct x as [|c x]; [left; reflexivity |].
      cbn [truthy andb]. destruct (new_sampy env _); left; reflexivity.
    + apply get_raises in D. subst e. right.
      split; [reflexivity | eexists; reflexivity].
  - destruct x as [|c x]; [left; reflexivity |].
    cbn [truthy andb]. destruct (new_sampy env _); left; reflexivity.
Qed.

Lemma open_sessions_cons (n : nat) (ev : Event) (tr : list Event) :
  open_sessions n (ev :: tr) = open_sessions (open_sessions n [ev]) tr.
Proof. destruct ev as [| | | ? []| | | | | | |]; reflexivity. Qed.

Lemma exclusive_prefix (tr : list Event) :
  forall n pre post,
    exclusive n tr = true -> tr = pre ++ post -> open_sessions n pre <= 1.
Proof.
  induction tr as [|ev tr IH]; intros n pre post Hx Heq.
  - destruct pre; [| discriminate]. cbn in *.
    rewrite andb_true_r in Hx. now apply Nat.leb_le.
  - cbn [exclusive] in Hx. apply andb_true_iff in Hx. destruct Hx as [Hn Hx].
    destruct pre as [|ev' pre].
    + cbn. now apply Nat.leb_le.
    + cbn [app] in Heq. injection Heq as <- Heq.
      rewrite open_sessions_cons. eapply IH; eassumption.
Qed.

(** C6: when [quiet] is false and the selected port is in use, the
    serial task registered for the port is told to stop as the first call
    of [start_sampy], before any connection is attempted, and it is told
    once; counting Open sessions along the calls, no prefix of the run
    leaves more than one session Open on the port. *)
Theorem stop_before_connect
  (env : Env) (g : Globals) (p : Port) (run_serial : Serial)
  (Hport : selected_port env = Some p)
  (Hused : port_in (Some p) (in_use env) = true)
  (Hdict : Dict.get (serial_dict env) p = Ret run_serial) :
  (exists rest,
      events (start_sampy env false g) = StopTask run_serial :: rest
      /\ forallb (fun ev => negb (is_stop_task ev)) rest = true)
  /\ forall pre post,
      events (start_sampy env false g) = pre ++ post ->
      open_sessions 1 pre <= 1.
Proof.
  assert (H : exists rest,
             events (start_sampy env false g) = StopTask run_serial :: rest
             /\ forallb (fun ev => negb (is_stop_task ev)) rest = true
             /\ exclusive 1 (StopTask run_serial :: rest) = true).
  { unfold start_sampy. rewrite Hport, Hused. cbn [andb negb].
    destruct p as [|c x]; cbn [truthy andb negb].
    - lazy -[Dict.get serial_dict]. rewrite Hdict.
      eexists. split; [reflexivity | split; reflexivity].
    - destruct (new_sampy env (String c x));
        lazy -[Dict.get serial_dict]; rewrite Hdict;
        (eexists; split; [reflexivity | split; reflexivity]). }
  destruct H as [rest [Hev [Hstop Hx]]]. split.
  - exists rest. now split.
  - intros pre post Heq. rewrite Hev in Heq.
    eapply exclusive_prefix; eassumption.
Qed.

Lemma stop_before_connect_witness :
  exists rest,
    events (start_sampy open_port_env false initial)
    = StopTask (SerialTask 1) :: rest.
Proof.
  destruct (@stop_before_connect open_port_env initial "COM3" (SerialTask 1)
              eq_refl eq_refl eq_refl) as [[rest [H _]] _].
  now exists rest.
Defined.

(** The other operations that call [sampy] do render the not-ready message
    when there is no session, and go on to [finished_action]. *)
Lemma not_ready_rendered_by_siblings
  (env : Env) (op : Operation) (g : Globals)
  (Hstart : value (start_sampy env false g) = Ret None)
  (Hprep : preparation env op = Ret tt)
  (Hop : catches op AttributeError = true) :
  last (printed (events (dispatch env op g))) "" = nl +++ nl +++ not_ready
  /\ finished_count (events (dispatch env op g)) = 1.
Proof.
  destruct (start_sampy_returns _ _ _ Hstart) as [Hg [Hf [_ Hp]]].
  destruct (start_sampy env false g) as [v G tr] eqn:E.
  cbn in Hstart, Hg, Hf, Hp. subst v G.
  destruct op; try discriminate Hop; cbn [dispatch].
  all: unfold run_file, list_files, get_files, put_file, remove_file,
         make_folder, remove_folder.
  all: rewrite (@bind_returned _ _ _ _ _ _ _ _ E); clear E;
    cbn [value events]; rewrite finished_count_app, printed_app, Hf, Hp.
  3: { cbn in Hprep. lazy -[finished_count printed last mkfolder normpath].
       rewrite Hprep. split; vm_compute; reflexivity. }
  all: split; vm_compute; reflexivity.
Qed.

End Dispatcher.

(** * Further properties *)

(** ** Board files with missing keys, and the place of [write_flash] *)
Section MoreFirmwareOptions.
Import BurnFirmware.

Lemma get_absent {V} (d : Dict.t V) (key : string) :
  ~ In key (map fst d) -> Dict.get d key = Raise (mkExn KeyError key).
Proof.
  induction d as [|[k v] d IH]; cbn; intros H; [reflexivity |].
  destruct (String.eqb_spec k key) as [-> | Hne].
  - exfalso. apply H. now left.
  - apply IH. intros Hin. apply H. now right.
Qed.

Lemma get_after_absent {V} (pre post : Dict.t V) (key : string) (v : V) :
  ~ In key (map fst pre) ->
  Dict.get (pre ++ (key, v) :: post) key = Ret v.
Proof.
  induction pre as [|[k w] pre IH]; cbn; intros H.
  - now rewrite String.eqb_refl.
  - destruct (String.eqb_spec k key) as [-> | Hne].
    + exfalso. apply H. now left.
    + apply IH. intros Hin. apply H. now right.
Qed.

Lemma emitted_app (a b : Upload) : emitted (a ++ b) = emitted a ++ emitted b.
Proof. unfold emitted, Dict.items. now rewrite filter_app, map_app. Qed.

(** X1: a board file without an [upload] section, or whose [upload]
    section has no [write_flash] key, makes [get_board_options] end in
    [KeyError] on that key, whatever other keys there are. *)
Theorem missing_key_is_key_error
  (env : Env) (board : string) (board_file : BoardFile)
  (Hload : load_board env board = Ret board_file) :
  (~ In "upload" (map fst board_file) ->
   get_board_options env board = Raise (mkExn KeyError "upload"))
  /\ (forall upload,
         Dict.get board_file "upload" = Ret upload ->
         ~ In write_flash (map fst upload) ->
         get_board_options env board = Raise (mkExn KeyError "write_flash")).
Proof.
  unfold get_board_options, board_options. rewrite Hload. split.
  - intros H. now rewrite get_absent by assumption.
  - intros upload Hu H. rewrite Hu. now rewrite get_absent by assumption.
Qed.

Lemma missing_key_is_key_error_witness :
  get_board_options (board_env [("--baud", "460800")] DIALOG_YES true) "esp32"
  = Raise (mkExn KeyError "write_flash").
Proof.
  refine (proj2 (@missing_key_is_key_error
                   (board_env [("--baud", "460800")] DIALOG_YES true) "esp32"
                   _ eq_refl) _ eq_refl _).
  cbn. intros [H | []]. discriminate H.
Defined.

(** X2: where the [write_flash] entry stands in the [upload] section does
    not matter: the list is the arguments of the entries before and after
    it, in their order, and then the [write_flash] argument. *)
Theorem write_flash_position_irrelevant
  (env : Env) (board : string) (board_file : BoardFile)
  (pre post : Upload) (wf : string)
  (Hload : load_board env board = Ret board_file)
  (Hupload : Dict.get board_file "upload"
             = Ret (pre ++ (write_flash, wf) :: post))
  (Hpre : ~ In write_flash (map fst pre)) :
  get_board_options env board
  = Ret (emitted (pre ++ post) ++ ["write_flash " +++ wf]).
Proof.
  unfold get_board_options. rewrite Hload.
  rewrite (@board_options_emitted _ _ wf Hupload)
    by (now apply get_after_absent).
  rewrite !emitted_app. reflexivity.
Qed.

Lemma write_flash_position_irrelevant_witness :
  get_board_options
    (board_env [("write_flash", "0x1000 fw.bin"); ("--baud", "460800")]
               DIALOG_YES true) "esp32"
  = Ret ["--baud 460800"; "write_flash 0x1000 fw.bin"].
Proof.
  refine (@write_flash_position_irrelevant
            (board_env [("write_flash", "0x1000 fw.bin"); ("--baud", "460800")]
                       DIALOG_YES true) "esp32" _ [] [("--baud", "460800")]
            "0x1000 fw.bin" eq_refl eq_refl _).
  intros [].
Defined.

End MoreFirmwareOptions.

(** ** The last segment of a path *)
Section LastField.

Lemma last_field_no_separator (sep : ascii) (s : string) :
  has_char sep (last_field sep s) = false.
Proof.
  induction s as [|c s IH]; [reflexivity |].
  cbn [last_field].
  destruct (has_char sep s) eqn:E; [exact IH |].
  destruct (Ascii.eqb c sep) eqn:F; [exact E |].
  cbn [has_char]. now rewrite F, E.
Qed.

Lemma last_field_suffix (sep : ascii) (s : string) :
  exists front, s = front +++ last_field sep s.
Proof.
  induction s as [|c s [front IH]]; [now exists "" |].
  cbn [last_field].
  destruct (has_char sep s).
  - exists (String c front). cbn. now rewrite <- IH.
  - destruct (Ascii.eqb c sep).
    + now exists (String c "").
    + now exists "".
Qed.

Lemma last_field_after_separator (sep : ascii) (front back : string) :
  has_char sep back = false ->
  last_field sep (front +++ String sep back) = back.
Proof.
  intros Hb. induction front as [|c front IH]; cbn [String.append last_field].
  - now rewrite Hb, Ascii.eqb_refl.
  - assert (H : has_char sep (front +++ String sep back) = true).
    { clear IH. induction front as [|d front IH]; cbn.
      - now rewrite Ascii.eqb_refl.
      - rewrite IH. apply orb_true_r. }
    now rewrite H.
Qed.

(** X3: [url.split('/')[-1]] holds no separator and is the end of the
    text; it is the whole text when there is no separator, and what
    follows the last separator otherwise. *)
Theorem last_field_is_last_segment (sep : ascii) (s : string) :
  has_char sep (last_field sep s) = false
  /\ (exists front, s = front +++ last_field sep s)
  /\ (has_char sep s = false -> last_field sep s = s)
  /\ (forall front back,
         s = front +++ String sep back -> has_char sep back = false ->
         last_field sep s = back).
Proof.
  repeat split.
  - apply last_field_no_separator.
  - apply last_field_suffix.
  - destruct s as [|c s]; [reflexivity |]. cbn.
    destruct (Ascii.eqb c sep); cbn; [discriminate |].
    intros ->. reflexivity.
  - intros front back -> Hb. now apply last_field_after_separator.
Qed.

Lemma last_field_is_last_segment_witness :
  last_field "/" "firmwares/esp32/esp32-20171112.bin" = "esp32-20171112.bin"
  /\ last_field "/" "esp32.bin" = "esp32.bin".
Proof.
  split.
  - exact (proj2 (proj2 (proj2 (last_field_is_last_segment
             "/" "firmwares/esp32/esp32-20171112.bin")))
             "firmwares/esp32" "esp32-20171112.bin" eq_refl eq_refl).
  - exact (proj1 (proj2 (proj2 (last_field_is_last_segment "/" "esp32.bin")))
             eq_refl).
Defined.

End LastField.

(** ** What a flash run does, and with which arguments *)
Section MoreFlashWorkflow.
Import BurnFirmware.

(** X4: when the [upload] section of the [esp32] board file has no
    [write_flash] key, [burn_firmware] ends in [KeyError] before the erase
    prompt: it makes no call at all. *)
Theorem missing_write_flash_stops_flash
  (env : Env) (self : Self) (board_file : BoardFile) (upload : Upload)
  (Hload : load_board env "esp32" = Ret board_file)
  (Hupload : Dict.get board_file "upload" = Ret upload)
  (Hmissing : ~ In write_flash (map fst upload)) :
  burn_firmware env self
  = mkRun [] None (Raise (mkExn KeyError "write_flash")).
Proof.
  unfold burn_firmware, get_board_options, board_options.
  rewrite Hload, Hupload. now rewrite get_absent by assumption.
Qed.

Lemma missing_write_flash_stops_flash_witness :
  burn_firmware (board_env [("--baud", "460800")] DIALOG_YES true) some_self
  = mkRun [] None (Raise (mkExn KeyError "write_flash")).
Proof.
  refine (@missing_write_flash_stops_flash
            (board_env [("--baud", "460800")] DIALOG_YES true) some_self
            _ _ eq_refl eq_refl _).
  cbn. intros [H | []]. discriminate H.
Defined.

(** X5: [burn_firmware] runs the flashing process at most once, and
    exactly when the board file compiles, the prompt is not cancelled and
    the port check passes; it erases at most once, and exactly when the
    board file compiles and the prompt is answered Yes. *)
Theorem flash_steps_run_exactly_when (env : Env) (self : Self) :
  length (filter runs_flash (trace (burn_firmware env self)))
  = (if compiles env
        && match yes_no_cancel_dialog env with
           | DIALOG_CANCEL => false
           | _ => true
           end
        && check_port env (port self)
     then 1 else 0)
  /\ length (filter erases (trace (burn_firmware env self)))
     = (if compiles env
           && match yes_no_cancel_dialog env with
              | DIALOG_YES => true
              | _ => false
              end
        then 1 else 0).
Proof.
  unfold burn_firmware, compiles.
  destruct (get_board_options env "esp32"); [| split; reflexivity].
  destruct (yes_no_cancel_dialog env);
    destruct (check_port env (port self)); split; reflexivity.
Qed.

(** X6: when flashing runs, it is the last call, and its arguments are
    the port argument, then the compiled options in order, then the
    [write_flash] argument, then the firmware path. *)
Theorem flash_arguments
  (env : Env) (self : Self) (board_file : BoardFile) (upload : Upload)
  (wf : string)
  (Hload : load_board env "esp32" = Ret board_file)
  (Hupload : Dict.get board_file "upload" = Ret upload)
  (Hwf : Dict.get upload write_flash = Ret wf)
  (Hanswer : yes_no_cancel_dialog env <> DIALOG_CANCEL)
  (Hport : check_port env (port self) = true) :
  last (trace (burn_firmware env self)) ShowConsole
  = RunCommand
      (["--port " +++ port self]
         ++ emitted upload
         ++ ["write_flash " +++ wf;
             join env (firmwares self) (last_field "/" (url self))]).
Proof.
  unfold burn_firmware, get_board_options. rewrite Hload.
  rewrite (@board_options_emitted _ _ wf Hupload Hwf), Hport.
  destruct (yes_no_cancel_dialog env); [| | now elim Hanswer];
    cbn; rewrite <- app_assoc; reflexivity.
Qed.


Lemma flash_arguments_witness :
  last (trace (burn_firmware (board_env esp32_upload DIALOG_NO true) some_self))
       ShowConsole
  = RunCommand ["--port COM3"; "--flash_mode=dio"; "--flash_freq 40m";
                "write_flash 0x1000 firmware.bin"; "firmwares/esp32/esp32.bin"].
Proof.
  refine (@flash_arguments (board_env esp32_upload DIALOG_NO true) some_self
            _ _ _ eq_refl eq_refl eq_refl _ eq_refl).
  discriminate.
Defined.

End MoreFlashWorkflow.

(** ** The command object *)
Section CommandObject.
Import BurnCommand.

Lemma firmware_loop_appends (env : Env) (found : list string) :
  forall p l f u,
    firmware_loop env found (mkState p (Some l) f u)
    = mkOut (mkState p (Some (l ++ map (basename env) found)) f u) [] None.
Proof.
  induction found as [|x found IH]; intros p l f u; cbn.
  - now rewrite app_nil_r.
  - rewrite IH. now rewrite <- app_assoc.
Qed.

(** X7: [run] never raises.  Without a port it does nothing; with a port
    but nothing selected it empties [items] and asks for a board; otherwise
    it shows one quick panel whose entries are the base names of the files
    found in the firmware folder of the board, in the order found, whatever
    [items] held before. *)
Theorem run_offers_firmwares (env : Env) (selected : bool) (st : State) :
  raised (run env selected st) = None
  /\ events (run env selected st)
     = (if truthy (selected_port env)
        then if selected
             then [QuickPanel (Some (offered env))]
             else [RunWindowCommand "upiot_select_board"]
        else [])
  /\ state (run env selected st)
     = (if truthy (selected_port env)
        then mkState (selected_port env)
                     (Some (if selected then offered env else []))
                     (if selected
                      then Some (firmware_folder env (board env))
                      else firmwares st)
                     (url st)
        else mkState (selected_port env) (items st) (firmwares st) (url st)).
Proof.
  unfold run, offered. cbn [port items firmwares url].
  destruct (truthy (selected_port env)); cbn [negb]; [| repeat split].
  destruct selected; cbn [negb]; [| repeat split].
  unfold firmware_list. cbn [firmwares].
  rewrite firmware_loop_appends. repeat split.
Qed.

(** X8: running the command again on the object it left behind gives the
    same result: the entries do not pile up from one run to the next. *)
Theorem run_does_not_accumulate (env : Env) (selected : bool) (st : State) :
  truthy (selected_port env) = true ->
  run env selected (state (run env selected st)) = run env selected st.
Proof.
  intros Hp.
  destruct (run_offers_firmwares env selected st) as [_ [_ Hs]].
  rewrite Hp in Hs. rewrite Hs.
  unfold run. cbn [port items firmwares url]. rewrite Hp. cbn [negb].
  destruct selected; cbn [negb]; [| reflexivity].
  unfold firmware_list. cbn [firmwares].
  now rewrite !firmware_loop_appends.
Qed.

Lemma run_does_not_accumulate_witness :
  items (state (run sample_env true (state (run sample_env true fresh))))
  = Some ["a.bin"; "b.bin"].
Proof.
  rewrite (@run_does_not_accumulate sample_env true fresh eq_refl).
  reflexivity.
Defined.

(** X9: [callback_selection] does nothing for [-1]; for an index inside
    the list it stores that entry in [url] and schedules [burn_firmware]
    once; an index below [-1] counts from the end of the list; any other
    index ends in [IndexError] with the object unchanged and nothing
    scheduled. *)
Theorem callback_selection_picks
  (selection : Z) (st : State) (l : list string)
  (Hitems : items st = Some l) :
  (selection = (-1)%Z -> callback_selection selection st = mkOut st [] None)
  /\ ((0 <= selection < Z.of_nat (length l))%Z ->
      exists u,
        nth_error l (Z.to_nat selection) = Some u
        /\ callback_selection selection st
           = mkOut (mkState (port st) (items st) (firmwares st) (Some u))
                   [SetTimeoutAsync] None)
  /\ ((- Z.of_nat (length l) <= selection < -1)%Z ->
      exists u,
        nth_error l (Z.to_nat (selection + Z.of_nat (length l))) = Some u
        /\ callback_selection selection st
           = mkOut (mkState (port st) (items st) (firmwares st) (Some u))
                   [SetTimeoutAsync] None)
  /\ ((Z.of_nat (length l) <= selection
       \/ selection < - Z.of_nat (length l))%Z ->
      selection <> (-1)%Z ->
      callback_selection selection st = mkOut st [] (Some IndexError)).
Proof.
  unfold callback_selection, py_index. rewrite Hitems.
  repeat split.
  - intros ->. reflexivity.
  - intros H.
    destruct (Z.eqb_spec selection (-1)); [lia |].
    destruct (Z.ltb_spec selection 0); [lia |].
    destruct (Z.leb_spec 0 selection); [| lia].
    destruct (Z.ltb_spec selection (Z.of_nat (length l))); [| lia].
    cbn [andb].
    destruct (nth_error l (Z.to_nat selection)) as [u |] eqn:E.
    + exists u. now split.
    + apply nth_error_None in E. lia.
  - intros H.
    destruct (Z.eqb_spec selection (-1)); [lia |].
    destruct (Z.ltb_spec selection 0); [| lia].
    destruct (Z.leb_spec 0 (selection + Z.of_nat (length l))); [| lia].
    destruct (Z.ltb_spec (selection + Z.of_nat (length l))
                         (Z.of_nat (length l))); [| lia].
    cbn [andb].
    destruct (nth_error l (Z.to_nat (selection + Z.of_nat (length l))))
      as [u |] eqn:E.
    + exists u. now split.
    + apply nth_error_None in E. lia.
  - intros H Hne.
    destruct (Z.eqb_spec selection (-1)).
    + contradiction.
    + destruct (Z.ltb_spec selection 0).
      * destruct (Z.leb_spec 0 (selection + Z.of_nat (length l)));
          [lia | reflexivity].
      * destruct (Z.leb_spec 0 selection); [| lia].
        destruct (Z.ltb_spec selection (Z.of_nat (length l)));
          [lia | reflexivity].
Qed.

Lemma callback_selection_picks_witness :
  callback_selection 1 (state (run sample_env true fresh))
  = mkOut (mkState (Some "COM3") (Some ["a.bin"; "b.bin"])
                   (Some "firmwares/esp32") (Some "b.bin"))
          [SetTimeoutAsync] None
  /\ callback_selection 2 (state (run sample_env true fresh))
     = mkOut (state (run sample_env true fresh)) [] (Some IndexError).
Proof.
  destruct (@callback_selection_picks 1 (state (run sample_env true fresh))
              ["a.bin"; "b.bin"] eq_refl) as [_ [H _]].
  destruct (@callback_selection_picks 2 (state (run sample_env true fresh))
              ["a.bin"; "b.bin"] eq_refl) as [_ [_ [_ G]]].
  split.
  - destruct H as [u [Hu ->]]; [cbn; lia |].
    cbn in Hu. injection Hu as <-. reflexivity.
  - apply G; [cbn; lia | discriminate].
Defined.

(** X10: after [run] with a port and a selected board, choosing the
    entry of a found file schedules [burn_firmware] on an object whose port
    is the selected port, whose folder is the firmware folder of the board,
    and whose [url] is the base name of that file. *)
Theorem selection_reaches_burn_firmware
  (env : Env) (st : State) (selection : nat) (p firmware : string)
  (Hport : selected_port env = Some p)
  (Htruthy : truthy (selected_port env) = true)
  (Hfound : nth_error
              (glob env (join env (firmware_folder env (board env)) "*"))
              selection = Some firmware) :
  raised (callback_selection (Z.of_nat selection) (state (run env true st)))
  = None
  /\ events (callback_selection (Z.of_nat selection) (state (run env true st)))
     = [SetTimeoutAsync]
  /\ self_of (state (callback_selection (Z.of_nat selection)
                                        (state (run env true st))))
     = Some (BurnFirmware.mkSelf p (firmware_folder env (board env))
                                 (basename env firmware)).
Proof.
  destruct (run_offers_firmwares env true st) as [_ [_ Hs]].
  rewrite Htruthy in Hs. rewrite Hs. clear Hs.
  assert (Hlen : selection < length (offered env)).
  { unfold offered. rewrite length_map. apply nth_error_Some. congruence. }
  assert (Hnth : nth_error (offered env) selection
                 = Some (basename env firmware)).
  { unfold offered. now rewrite nth_error_map, Hfound. }
  destruct (@callback_selection_picks (Z.of_nat selection)
              (mkState (selected_port env) (Some (offered env))
                       (Some (firmware_folder env (board env))) (url st))
              (offered env) eq_refl) as [_ [H _]].
  destruct H as [u [Hu ->]]; [lia |].
  rewrite Nat2Z.id, Hnth in Hu. injection Hu as <-.
  cbn. rewrite Hport. repeat split.
Qed.

Lemma selection_reaches_burn_firmware_witness :
  self_of (state (callback_selection 0 (state (run sample_env true fresh))))
  = Some (BurnFirmware.mkSelf "COM3" "firmwares/esp32" "a.bin").
Proof.
  exact (proj2 (proj2 (@selection_reaches_burn_firmware sample_env fresh 0
                         "COM3" "firmwares/esp32/a.bin"
                         eq_refl eq_refl eq_refl))).
Defined.

End CommandObject.

(** ** Calls made with the globals bound *)
Section SteadyRules.
Import SampyManager.
Open Scope py_scope.
Variable p : option Port.
Variable Q : Event -> Prop.

Lemma steady_ret {A} (a : A) : steady p Q (ret a).
Proof. split; [reflexivity | constructor]. Qed.

Lemma steady_raise {A} (e : Exn) : steady p Q (@raise A e).
Proof. split; [reflexivity | constructor]. Qed.

Lemma steady_lift {A} (r : Result A) : steady p Q (lift r).
Proof. split; [reflexivity | constructor]. Qed.

Lemma steady_emit (ev : Event) : Q ev -> steady p Q (emit ev).
Proof. intros H. split; [reflexivity | now repeat constructor]. Qed.

Lemma steady_bind {A B} (m : M A) (f : A -> M B) :
  steady p Q m -> (forall a, steady p Q (f a)) -> steady p Q (bind m f).
Proof.
  intros [Hg Hq] Hf. unfold steady, bind.
  destruct (value (m (bound p))) as [a | e]; cbn.
  - rewrite Hg. destruct (Hf a) as [Fg Fq]. split; [exact Fg |].
    apply Forall_app. now split.
  - now split.
Qed.

Lemma steady_try {A} (m : M A) (handler : Exn -> option (M A)) :
  steady p Q m -> handler_ok p Q handler -> steady p Q (try_except m handler).
Proof.
  intros [Hg Hq] Hh. unfold steady, try_except.
  destruct (value (m (bound p))) as [a | e]; [now split |].
  destruct (handler e) as [h |] eqn:E; [| now split].
  cbn. rewrite Hg. destruct (Hh e h E) as [Fg Fq]. split; [exact Fg |].
  apply Forall_app. now split.
Qed.

Lemma handler_on {A} (k : ExnKind) (H : Exn -> M A) :
  (forall e, steady p Q (H e)) -> handler_ok p Q (fun e => on k e (H e)).
Proof.
  intros HH e h. unfold on. destruct (kind_eqb (kind e) k); [| discriminate].
  intros E. injection E as <-. apply HH.
Qed.

Lemma handler_or_else {A} (a b : Exn -> option (M A)) :
  handler_ok p Q a -> handler_ok p Q b ->
  handler_ok p Q (fun e => or_else (a e) (b e)).
Proof.
  intros Ha Hb e h. unfold or_else. destruct (a e) as [x |] eqn:E; intros F.
  - apply (Ha e). now rewrite E.
  - now apply (Hb e).
Qed.

Lemma steady_attr (sampy : option Sampy) (name : string) :
  steady p Q (attr sampy name).
Proof. destruct sampy; [apply steady_ret | apply steady_raise]. Qed.

Lemma steady_txt_print (text : string) :
  (forall t, Q (Print (SinkOf p) t)) -> steady p Q (txt_print text).
Proof. intros H. split; [reflexivity |]. repeat constructor. apply H. Qed.

Lemma steady_print_names (names : list string) :
  (forall t, Q (Print (SinkOf p) t)) -> steady p Q (print_names names).
Proof.
  intros H. induction names as [|n names IH]; [apply steady_ret |].
  cbn [print_names].
  apply steady_bind; [now apply steady_txt_print | now intros].
Qed.

Lemma steady_finished_action :
  Q (EstablishConnection p) -> Q (WindowCommand "upiot_console_write" None) ->
  steady p Q finished_action.
Proof. intros H1 H2. split; [reflexivity |]. now repeat constructor. Qed.

Lemma steady_retrieve (env : Env) (destination : string) (names : list string) :
  (forall t, Q (Print (SinkOf p) t)) ->
  (forall path, Q (Mkdir path)) ->
  (forall path, Q (OpenWb path)) ->
  steady p Q (retrieve env destination names).
Proof.
  intros Hp Hm Ho. induction names as [|n names IH]; [apply steady_ret |].
  cbn [retrieve].
  apply steady_bind; [now apply steady_txt_print | intros _].
  apply steady_bind; [| now intros].
  destruct (endswith n "/").
  - destruct (negb (path_exists env _)); [| apply steady_ret].
    apply steady_bind; [now apply steady_emit | intros; apply steady_lift].
  - apply steady_bind; [now apply steady_emit | intros _].
    apply steady_bind; intros; apply steady_lift.
Qed.

(** What follows [start_sampy] in an operation runs with the globals
    bound, when it runs at all. *)
Lemma after_start (env : Env) (quiet : bool) {A} (rest : option Sampy -> M A)
      (g : Globals) :
  selected_port env = p ->
  (forall sampy, steady p Q (rest sampy)) ->
  exists tail,
    events (bind (start_sampy env quiet) rest g)
    = events (start_sampy env quiet g) ++ tail
    /\ Forall Q tail.
Proof.
  intros Hp Hrest. unfold bind.
  destruct (value (start_sampy env quiet g)) as [sampy | e] eqn:E.
  - destruct (start_sampy_returns _ _ _ E) as [Hg _].
    rewrite Hg, Hp. cbn [events].
    exists (events (rest sampy (bound p))). split; [reflexivity |].
    apply Hrest.
  - exists []. cbn [events]. now rewrite app_nil_r.
Qed.

End SteadyRules.

(** Follow the shape of an operation; [tac] shows that a call satisfies the
    property at hand. *)
Ltac steady_auto tac :=
  repeat first
    [ progress intros
    | apply steady_txt_print; solve [tac]
    | apply steady_finished_action; solve [tac]
    | apply steady_print_names; solve [tac]
    | apply steady_retrieve; solve [tac]
    | apply steady_attr
    | apply steady_lift
    | apply steady_ret
    | apply steady_raise
    | apply steady_emit; solve [tac]
    | apply steady_try
    | apply handler_or_else
    | apply handler_on
    | apply steady_bind
    | match goal with
      | |- SampyManager.steady _ _ (match ?x with _ => _ end) =>
          destruct x eqn:?
      end ].

Section DispatchTail.
Import SampyManager.
Open Scope py_scope.
Variable p : option Port.
Variable Q : Event -> Prop.
Hypothesis Q_print : forall text, Q (Print (SinkOf p) text).
Hypothesis Q_finish : Q (EstablishConnection p).
Hypothesis Q_window : forall name args, Q (WindowCommand name args).
Hypothesis Q_mkdir : forall path, Q (Mkdir path).
Hypothesis Q_open : forall path, Q (OpenWb path).
Hypothesis Q_mkfolder : forall path, Q (Mkfolder path).
Hypothesis Q_dialog : forall c y n, Q (YesNoCancelDialog c y n).

Lemma dispatch_tail (env : Env) (op : Operation) (g : Globals) :
  selected_port env = p ->
  exists tail,
    events (dispatch env op g)
    = events (start_sampy env (quiet_of op) g) ++ tail
    /\ Forall Q tail.
Proof.
  intros Hp.
  destruct op; cbn [dispatch quiet_of];
    unfold run_file, list_files, get_file, get_files, put_file, remove_file,
      make_folder, remove_folder, help;
    apply after_start with (p := p); try exact Hp; steady_auto auto.
Qed.

End DispatchTail.

Section Addressing.
Import SampyManager.
Open Scope py_scope.

Lemma start_sampy_events (env : Env) (quiet : bool) (g : Globals) :
  Forall (targets (selected_port env)) (events (start_sampy env quiet g))
  /\ Forall starts_session (events (start_sampy env quiet g))
  /\ length (filter connects (events (start_sampy env quiet g)))
     <= (if quiet then 0 else 1)
  /\ length (filter is_stop_task (events (start_sampy env quiet g)))
     <= (if quiet then 0 else 1).
Proof.
  destruct quiet.
  - rewrite start_sampy_quiet. cbn. repeat split; repeat constructor.
  - unfold start_sampy.
    destruct (selected_port env) as [x |].
    + destruct (port_in (Some x) (in_use env)); cbn [andb negb]; cbv beta iota.
      * destruct (Dict.get (serial_dict env) x) as [r | e].
        -- destruct x as [|c x]; cbn [truthy andb];
             [| destruct (new_sampy env _)]; cbn;
             repeat split; repeat constructor.
        -- cbn. repeat split; repeat constructor.
      * destruct x as [|c x]; cbn [truthy andb];
          [| destruct (new_sampy env _)]; cbn;
          repeat split; repeat constructor.
    + cbn. repeat split; repeat constructor.
Qed.

(** X11: whatever the globals held before, every operation prints to and
    focuses the message view of the port selected now, and opens and
    reconnects that port only. *)
Theorem operations_address_selected_port
  (env : Env) (op : Operation) (g : Globals) :
  Forall (targets (selected_port env)) (events (dispatch env op g)).
Proof.
  destruct (@dispatch_tail (selected_port env) (targets (selected_port env)))
    with (env := env) (op := op) (g := g) as [tail [-> Htail]];
    cbn; auto.
  apply Forall_app. split; [apply start_sampy_events | exact Htail].
Qed.

Lemma filter_none {A} (f : A -> bool) (l : list A) :
  Forall (fun x => f x = false) l -> filter f l = [].
Proof.
  induction 1 as [|x l Hx _ IH]; [reflexivity |]. cbn. now rewrite Hx.
Qed.

(** X12: an operation opens at most one connection and sends at most one
    stop signal; [help] opens none and sends none. *)
Theorem one_connection_per_operation
  (env : Env) (op : Operation) (g : Globals) :
  length (filter connects (events (dispatch env op g)))
  <= (if quiet_of op then 0 else 1)
  /\ length (filter is_stop_task (events (dispatch env op g)))
     <= (if quiet_of op then 0 else 1).
Proof.
  destruct (@dispatch_tail (selected_port env)
              (fun ev => connects ev = false /\ is_stop_task ev = false))
    with (env := env) (op := op) (g := g) as [tail [-> Htail]];
    cbn; auto.
  rewrite !filter_app, !length_app.
  rewrite (@filter_none _ connects tail), (@filter_none _ is_stop_task tail).
  - cbn [length]. rewrite !Nat.add_0_r.
    destruct (start_sampy_events env (quiet_of op) g) as [_ [_ H]]. exact H.
  - eapply Forall_impl; [| exact Htail]. now intros ev [_ H].
  - eapply Forall_impl; [| exact Htail]. now intros ev [H _].
Qed.

Ltac add_project_case :=
  intros;
  match goal with
  | |- SampyManager.adds_after_prompt _ _ _ =>
      let H := fresh "H" in
      intros ? H;
      first [ discriminate H
            | injection H as <-; split; [assumption | auto] ]
  end.

(** X13: [get_files] adds the folder to the project only when the folder
    is not in the side bar yet and the prompt is answered: Yes adds it
    without appending, No appends it, and the folder is the normalized
    destination. *)
Theorem add_project_only_after_prompt
  (env : Env) (destination : string) (g : Globals)
  (args : option (string * bool))
  (Hin : In (WindowCommand "upiot_add_project" args)
            (events (get_files env destination g))) :
  check_sidebar_folder env (normpath env destination) = false
  /\ ((yes_no_cancel_dialog env = DIALOG_YES
       /\ args = Some (normpath env destination, false))
      \/ (yes_no_cancel_dialog env = DIALOG_NO
          /\ args = Some (normpath env destination, true))).
Proof.
  assert (H : Forall (adds_after_prompt env (normpath env destination))
                     (events (get_files env destination g))).
  { unfold get_files.
    match goal with
    | |- Forall _ (events (bind _ ?rest g)) =>
        destruct (@after_start (selected_port env)
                    (adds_after_prompt env (normpath env destination))
                    env false unit rest g eq_refl)
          as [tail [Hev Htail]]
    end.
    - cbv zeta. steady_auto add_project_case.
    - rewrite Hev. apply Forall_app. split; [| exact Htail].
      destruct (start_sampy_events env false g) as [_ [Hs _]].
      eapply Forall_impl; [| exact Hs].
      intros ev Hev' a' ->. destruct Hev'. }
  rewrite Forall_forall in H. exact (H _ Hin args eq_refl).
Qed.

Lemma add_project_only_after_prompt_witness :
  check_sidebar_folder prompting_env (normpath prompting_env "backup") = false
  /\ ((yes_no_cancel_dialog prompting_env = DIALOG_YES
       /\ Some ("backup", true) = Some (normpath prompting_env "backup", false))
      \/ (yes_no_cancel_dialog prompting_env = DIALOG_NO
          /\ Some ("backup", true)
             = Some (normpath prompting_env "backup", true))).
Proof.
  apply (@add_project_only_after_prompt prompting_env "backup" initial
           (Some ("backup", true))).
  vm_compute. tauto.
Defined.

End Addressing.

(** ** Headers, help and a refused connection *)
Section MoreDispatcher.
Import SampyManager.
Open Scope py_scope.

Lemma head_bind {A B} (m : M A) (f : A -> M B) (g : Globals) (h : string) :
  hd_error (printed (events (m g))) = Some h ->
  hd_error (printed (events (bind m f g))) = Some h.
Proof.
  intros H. unfold bind. destruct (value (m g)); cbn [events]; [| exact H].
  rewrite printed_app.
  destruct (printed (events (m g))); [discriminate | exact H].
Qed.

Lemma head_try {A} (m : M A) (handler : Exn -> option (M A)) (g : Globals)
      (h : string) :
  hd_error (printed (events (m g))) = Some h ->
  hd_error (printed (events (try_except m handler g))) = Some h.
Proof.
  intros H. unfold try_except. destruct (value (m g)); [exact H |].
  destruct (handler e); [| exact H]. cbn [events]. rewrite printed_app.
  destruct (printed (events (m g))); [discriminate | exact H].
Qed.

Lemma head_txt_print (p : option Port) (text : string) :
  hd_error (printed (events (txt_print text (bound p)))) = Some text.
Proof. reflexivity. Qed.

(** X14: once the session start has returned (and [mkfolder] succeeded
    for [get_files]), the first text an operation prints is its header,
    whatever the protocol call does afterwards; for [help] it is the usage
    text. *)
Theorem header_printed_first
  (env : Env) (op : Operation) (g : Globals) (sampy : option Sampy)
  (Hstart : value (start_sampy env (quiet_of op) g) = Ret sampy)
  (Hprep : preparation env op = Ret tt) :
  hd_error (printed (events (dispatch env op g))) = Some (header env op).
Proof.
  destruct (start_sampy_returns _ _ _ Hstart) as [Hg [_ [_ Hp]]].
  destruct (start_sampy env (quiet_of op) g) as [v G tr] eqn:E.
  cbn in Hstart, Hg, Hp. subst v G.
  destruct op; cbn [dispatch quiet_of header] in *;
    unfold run_file, list_files, get_file, get_files, put_file, remove_file,
      make_folder, remove_folder, help;
    rewrite (@bind_returned _ _ _ _ _ _ _ _ E); clear E;
    cbn [events]; rewrite printed_app, Hp; cbn [app]; cbv zeta;
    fold (bound (selected_port env)).
  4: { cbn in Hprep.
       rewrite (@bind_returned _ _ _ _ _ _ _ _
                  (eq_refl : emit (Mkfolder (normpath env destination))
                                  (bound (selected_port env)) = _)).
       cbn [events]. rewrite printed_app. cbn [printed app].
       assert (L : lift (mkfolder env (normpath env destination))
                        (bound (selected_port env))
                   = mkOut (Ret tt) (bound (selected_port env)) []).
       { unfold lift. now rewrite Hprep. }
       rewrite (@bind_returned _ _ _ _ _ _ _ _ L).
       cbn [events app].
       apply head_bind, head_txt_print. }
  4: { apply head_bind, head_try, head_bind, head_txt_print. }
  all: apply head_bind, head_txt_print.
Qed.

Lemma header_printed_first_witness :
  hd_error (printed (events (dispatch failing_run_env (Run "src/main.py")
                                      initial)))
  = Some (header failing_run_env (Run "src/main.py")).
Proof.
  exact (@header_printed_first failing_run_env (Run "src/main.py") initial
           (Some (SampyOn "COM3")) eq_refl eq_refl).
Defined.

(** X15: [help] is the same in every surrounding: it binds and focuses
    the message view, prints the usage text, runs [finished_action], and
    neither stops nor opens a session. *)
Theorem help_needs_no_session (env : Env) (g : Globals) :
  help env g
  = mkOut (Ret tt) (bound (selected_port env))
          [MessageOpen (selected_port env);
           SetFocus (SinkOf (selected_port env));
           Print (SinkOf (selected_port env)) _help;
           EstablishConnection (selected_port env);
           WindowCommand "upiot_console_write" None].
Proof.
  unfold help.
  rewrite (@bind_returned _ _ _ _ _ _ _ _ (start_sampy_quiet env g)).
  vm_compute. reflexivity.
Qed.

(** X16: when the [Sampy] constructor raises on a port that is not in
    use, [start_sampy] ends in [NameError] after focusing the view: nothing
    is printed, whatever the exception was. *)
Theorem failed_connection_is_name_error
  (env : Env) (g : Globals) (c : ascii) (x : string) (e : Exn)
  (Hport : selected_port env = Some (String c x))
  (Hfree : port_in (Some (String c x)) (in_use env) = false)
  (Hfail : new_sampy env (String c x) = Raise e) :
  start_sampy env false g
  = mkOut (Raise (mkExn NameError "name 'file' is not defined"))
          (bound (Some (String c x)))
          [MessageOpen (Some (String c x));
           SetFocus (SinkOf (Some (String c x)));
           NewSampy (String c x) false].
Proof.
  unfold start_sampy. rewrite Hport, Hfree. cbn [andb truthy negb].
  rewrite Hfail. reflexivity.
Qed.

Lemma failed_connection_is_name_error_witness :
  value (start_sampy refusing_env false initial)
  = Raise (mkExn NameError "name 'file' is not defined")
  /\ printed (events (start_sampy refusing_env false initial)) = [].
Proof.
  rewrite (@failed_connection_is_name_error refusing_env initial "C" "OM3"
             _ eq_refl eq_refl eq_refl).
  split; reflexivity.
Defined.

(** X17: when the device rejects the file, [put_file] prints its header
    and the reason and nothing else, and runs [finished_action] once,
    through its early return. *)
Theorem put_file_reports_device_error
  (env : Env) (g : Globals) (filepath reason : string) (sampy : Sampy)
  (Hstart : value (start_sampy env false g) = Ret (Some sampy))
  (Hput : sampy_put env (normpath env filepath)
          = Raise (mkExn PyboardError reason)) :
  value (put_file env filepath g) = Ret tt
  /\ printed (events (put_file env filepath g))
     = [nl +++ nl +++ ">> put " +++ basename env filepath;
        nl +++ nl +++ "Error putting the file." +++ nl +++ "Reason: "
        +++ reason]
  /\ finished_count (events (put_file env filepath g)) = 1.
Proof.
  destruct (start_sampy_returns _ _ _ Hstart) as [Hg [Hf [_ Hp]]].
  destruct (start_sampy env false g) as [v G tr] eqn:E.
  cbn in Hstart, Hg, Hf, Hp. subst v G.
  unfold put_file. rewrite (@bind_returned _ _ _ _ _ _ _ _ E). clear E.
  cbn [value events]. rewrite printed_app, finished_count_app, Hp, Hf.
  rewrite Hput.
  repeat split; vm_compute; reflexivity.
Qed.

Lemma put_file_reports_device_error_witness :
  printed (events (put_file rejecting_env "src/main.py" initial))
  = [nl +++ nl +++ ">> put main.py";
     nl +++ nl +++ "Error putting the file." +++ nl
     +++ "Reason: no space left on device"]
  /\ finished_count (events (put_file rejecting_env "src/main.py" initial)) = 1.
Proof.
  exact (proj2 (@put_file_reports_device_error rejecting_env initial
                  "src/main.py" _ (SampyOn "COM3") eq_refl eq_refl)).
Defined.

Lemma printed_prints (t : Sink) (f : string -> string) (names : list string) :
  printed (map (fun filename => Print t (f filename)) names) = map f names.
Proof.
  induction names as [|n names IH]; [reflexivity |]. cbn. now rewrite IH.
Qed.

(** X18: with a session, [list_files] prints its header and then one line
    per name the device lists, in the order listed, and finishes once. *)
Theorem list_files_prints_each_name
  (env : Env) (g : Globals) (sampy : Sampy) (names : list string)
  (Hstart : value (start_sampy env false g) = Ret (Some sampy))
  (Hls : sampy_ls env = Ret names) :
  value (list_files env g) = Ret tt
  /\ printed (events (list_files env g))
     = (nl +++ nl +++ ">> sampy ls" +++ nl)
         :: map (fun filename => nl +++ filename) names
  /\ finished_count (events (list_files env g)) = 1.
Proof.
  destruct (start_sampy_returns _ _ _ Hstart) as [Hg [Hf [_ Hp]]].
  destruct (start_sampy env false g) as [v G tr] eqn:E.
  cbn in Hstart, Hg, Hf, Hp. subst v G.
  unfold list_files. rewrite (@bind_returned _ _ _ _ _ _ _ _ E). clear E.
  cbn [value events]. rewrite printed_app, finished_count_app, Hp, Hf.
  rewrite Hls.
  lazy -[print_names String.append printed finished_count app].
  rewrite print_names_out.
  lazy -[String.append printed finished_count app map nl].
  rewrite !printed_app, !finished_count_app, finished_count_prints.
  rewrite (printed_prints _ (fun filename => nl +++ filename)).
  repeat split. cbn [printed app]. rewrite app_nil_r. reflexivity.
Qed.

Lemma list_files_prints_each_name_witness :
  printed (events (list_files open_port_env initial))
  = [nl +++ nl +++ ">> sampy ls" +++ nl; nl +++ "boot.py"; nl +++ "lib/"].
Proof.
  exact (proj1 (proj2 (@list_files_prints_each_name open_port_env initial
                         (SampyOn "COM3") _ eq_refl eq_refl))).
Defined.

End MoreDispatcher.

(** ** More on line endings and [replace] *)
Section MoreLineEndings.
Import SampyManager.

Lemma line_breaks_clean (s : string) :
  has_char CR s = false -> line_breaks s = s.
Proof.
  induction s as [|c s IH]; [reflexivity |].
  cbn [has_char line_breaks]. intros H. apply orb_false_iff in H.
  destruct H as [Hc Hs]. rewrite Hc. now rewrite IH.
Qed.

(** X19: text without a carriage return is printed by [get_file] as it
    is. *)
Theorem normalize_keeps_clean_text (s : string)
  (Hclean : has_char CR s = false) :
  normalize s = s.
Proof. rewrite normalize_line_breaks. now apply line_breaks_clean. Qed.

Lemma normalize_keeps_clean_text_witness :
  normalize ("import os" +++ nl +++ "print(os.listdir())" +++ nl)
  = "import os" +++ nl +++ "print(os.listdir())" +++ nl.
Proof.
  exact (@normalize_keeps_clean_text
           ("import os" +++ nl +++ "print(os.listdir())" +++ nl) eq_refl).
Defined.

Lemma line_breaks_length (s : string) :
  String.length (line_breaks s) <= String.length s
  /\ forall c, String.length (line_breaks (String c s))
               <= String.length (String c s).
Proof.
  induction s as [|d s [IH0 IH1]].
  - split; [reflexivity |]. intros c. cbn. destruct (Ascii.eqb c CR); reflexivity.
  - split; [apply IH1 |]. intros c. cbn [line_breaks].
    destruct (Ascii.eqb c CR).
    + destruct (Ascii.eqb d LF).
      * cbn [String.length]. now apply le_n_S, le_S.
      * change (S (String.length (line_breaks (String d s)))
                <= S (String.length (String d s))).
        apply le_n_S, IH1.
    + change (S (String.length (line_breaks (String d s)))
              <= S (String.length (String d s))).
      apply le_n_S, IH1.
Qed.

(** X20: normalizing twice is normalizing once, and normalizing never
    makes the text longer. *)
Theorem normalize_idempotent_and_no_longer (s : string) :
  normalize (normalize s) = normalize s
  /\ String.length (normalize s) <= String.length s.
Proof.
  split.
  - apply normalize_keeps_clean_text.
    unfold normalize, replace. apply replace_cr_no_cr.
  - rewrite normalize_line_breaks. apply line_breaks_length.
Qed.

(** [replace] returns the text unchanged when [old] does not occur
    in it. *)
Theorem replace_without_match (s old new : string)
  (Habsent : contains old s = false) :
  replace s old new = s.
Proof.
  unfold replace. destruct old as [|a old].
  - destruct s; discriminate Habsent.
  - induction s as [|c s IH]; [reflexivity |].
    cbn [contains] in Habsent. apply orb_false_iff in Habsent.
    destruct Habsent as [Hs Hc].
    cbn [replace_from]. rewrite Hs. now rewrite IH.
Qed.

Lemma replace_without_match_witness :
  replace "Usage: sampy" "    " "" = "Usage: sampy".
Proof. exact (@replace_without_match "Usage: sampy" "    " "" eq_refl). Defined.

End MoreLineEndings.

(** ** The loop of [get_files] *)
Section Retrieval.
Import SampyManager.
Open Scope py_scope.

Lemma out_eta {A} (o : Out A) : mkOut (value o) (globals o) (events o) = o.
Proof. now destruct o. Qed.

Lemma bind_assoc {A B C} (m : M A) (f : A -> M B) (h : B -> M C) (g : Globals) :
  bind (bind m f) h g = bind m (fun a => bind (f a) h) g.
Proof.
  unfold bind. destruct (value (m g)) as [a | e]; cbn; [| reflexivity].
  destruct (value (f a (globals (m g)))) as [b | e]; cbn;
    [| reflexivity].
  now rewrite app_assoc.
Qed.

Lemma bind_ext {A B} (m : M A) (f f' : A -> M B) (g : Globals) :
  (forall a g', f a g' = f' a g') -> bind m f g = bind m f' g.
Proof.
  intros H. unfold bind. destruct (value (m g)); [| reflexivity].
  now rewrite H.
Qed.

Lemma retrieve_app (env : Env) (destination : string) (a b : list string)
      (g : Globals) :
  retrieve env destination (a ++ b) g
  = bind (retrieve env destination a)
         (fun _ => retrieve env destination b) g.
Proof.
  revert g. induction a as [|n a IH]; intros g.
  - cbn. now rewrite out_eta.
  - cbn [app retrieve].
    rewrite !bind_assoc. apply bind_ext. intros _ g1.
    rewrite !bind_assoc. apply bind_ext. intros _ g2.
    apply IH.
Qed.

(** X21: the loop of [get_files] stops at the first entry that fails:
    the entries after it add no call and do not change the exception. *)
Theorem retrieve_stops_at_failure
  (env : Env) (destination : string) (done rest : list string)
  (g : Globals) (e : Exn)
  (Hfail : value (retrieve env destination done g) = Raise e) :
  retrieve env destination (done ++ rest) g = retrieve env destination done g.
Proof.
  rewrite retrieve_app. unfold bind. rewrite Hfail.
  rewrite <- Hfail. apply out_eta.
Qed.

Lemma retrieve_stops_at_failure_witness :
  retrieve read_only_env "backup" (["boot.py"] ++ ["lib/"; "main.py"])
           (bound (Some "COM3"))
  = retrieve read_only_env "backup" ["boot.py"] (bound (Some "COM3")).
Proof.
  exact (@retrieve_stops_at_failure read_only_env "backup" ["boot.py"]
           ["lib/"; "main.py"] (bound (Some "COM3")) _ eq_refl).
Defined.

End Retrieval.
